(** * RAG orchestration and streaming: a shallow embedding

    Embedding of [app/services/memory/memory_manager.py],
    [app/services/rag/rag_service.py] and
    [app/services/rag/conversation_service.py].

    Conventions:
    - a Python [str] is a [string]; every [ascii] stands for one
      character of the text (slicing and [len] count characters);
    - a call that can raise returns a [Result]; [Raise e] stands for an
      instance of [Exception] whose [str()] is [e];
    - [print] calls write to the log only and are left out;
    - the collaborators that the services hold by reference (the graph
      memory system, the web search service, the OpenAI client) are
      records of the outcomes of their methods;
    - [time.time()] readings, the fresh [uuid4] token and the UTC
      timestamp are inputs of the functions that take them. *)

From Stdlib Require Import ZArith Ascii String DecimalString.
From Stdlib Require QArith.
From stdpp Require Import gmap strings list.

(** ** Python primitives *)

Module Py.

(** Outcome of a call: a value, or an exception with its message. *)
Inductive Result (A : Type) : Type :=
| Ok (a : A)
| Raise (e : string).
Arguments Ok {A} a.
Arguments Raise {A} e.

#[global] Instance Result_ret : MRet Result := λ A, @Ok A.
#[global] Instance Result_bind : MBind Result := λ A B f m,
  match m with
  | Ok a => f a
  | Raise e => Raise e
  end.

(** [try: body except Exception as e: handler(str(e))] *)
Definition try_except {A} (body : Result A) (handler : string → Result A) : Result A :=
  match body with
  | Ok a => Ok a
  | Raise e => handler e
  end.

(** [for x in l: s = f(s, x)], stopping at the first exception. *)
Fixpoint for_each {A S} (f : S → A → Result S) (l : list A) (s : S) : Result S :=
  match l with
  | [] => Ok s
  | x :: l' => s' ← f s x; for_each f l' s'
  end.

(** Values stored in dictionaries typed [Dict[str, Any]]. *)
Inductive pyval : Type :=
| VInt (z : Z)
| VStr (s : string).

#[global] Instance pyval_eq_dec : EqDecision pyval.
Proof. solve_decision. Defined.

(** Truth value of a list, of an optional string and of an optional int. *)
Definition truthy_list {A} (l : list A) : bool :=
  match l with
  | [] => false
  | _ :: _ => true
  end.

Definition truthy_str (o : option string) : bool :=
  match o with
  | Some (String _ _) => true
  | _ => false
  end.

Definition truthy_int (o : option Z) : bool :=
  match o with
  | Some z => negb (z =? 0)%Z
  | None => false
  end.

(** [a or b] on optional strings, with [b] a string. *)
Definition str_or (a : option string) (b : string) : string :=
  match a with
  | Some (String c s) => String c s
  | _ => b
  end.

Definition newline : string := String (ascii_of_nat 10) EmptyString.

(** [str(i)] for a non-negative int. *)
Definition str_of_nat (n : nat) : string :=
  NilEmpty.string_of_uint (Nat.to_uint n).

(** [sep.join(parts)] *)
Definition join (sep : string) (parts : list string) : string :=
  String.concat sep parts.

(** [key.startswith(p)] *)
Definition startswith (p s : string) : bool := String.prefix p s.

(** [c.isspace()] for the characters below 256. *)
Definition isspace (c : ascii) : bool :=
  let n := nat_of_ascii c in
  ((9 <=? n) && (n <=? 13)) || ((28 <=? n) && (n <=? 32))
  || (n =? 133) || (n =? 160).

Fixpoint lstrip (s : string) : string :=
  match s with
  | EmptyString => EmptyString
  | String c s' => if isspace c then lstrip s' else s
  end.

Fixpoint rstrip (s : string) : string :=
  match s with
  | EmptyString => EmptyString
  | String c s' =>
      match rstrip s' with
      | EmptyString => if isspace c then EmptyString else String c EmptyString
      | r => String c r
      end
  end.

(** [s.strip()] *)
Definition strip (s : string) : string := rstrip (lstrip s).

(** [s[a:b]] for [0 <= a]. *)
Definition slice (s : string) (a b : nat) : string :=
  String.substring a (b - a) s.

(** [s[n:]] *)
Fixpoint skip (n : nat) (s : string) : string :=
  match n, s with
  | 0, _ => s
  | S n', String _ s' => skip n' s'
  | S _, EmptyString => EmptyString
  end.

(** [enumerate(l, start)] *)
Fixpoint enumerate {A} (l : list A) (start : nat) : list (nat * A) :=
  match l with
  | [] => []
  | x :: l' => (start, x) :: enumerate l' (S start)
  end.

(** [range(start, stop, step)] for a positive [step]: the values
    [start, start + step, ...] below [stop]. *)
Fixpoint range_loop (fuel i stop step : nat) : list nat :=
  match fuel with
  | 0 => []
  | S fuel' => if i <? stop then i :: range_loop fuel' (i + step) stop step else []
  end.

Definition range (start stop step : nat) : list nat :=
  range_loop (stop - start) start stop step.

(** Arithmetic on the floats that measure the processing time:
    subtraction of two clock readings and [round(x, 2)]. *)
Class FloatOps (float : Type) : Type := {
  float_sub : float → float → float;
  float_round2 : float → float
}.

(** Whether every character of [s] is whitespace; the empty string
    passes. Used to state what [strip] removes. *)
Fixpoint all_space (s : string) : bool :=
  match s with
  | EmptyString => true
  | String c s' => isspace c && all_space s'
  end.

End Py.
Export Py.

(** ** [memory/base_memory.py], [memory/graph_memory.py] (interfaces) *)

Module BaseMemory.

(** Modelled from the spec: the entries of [RetrievalResult.web_results]
    ([memory/base_memory.py] is not among the sources). The specification
    has them as [{title, snippet}] records; the code reads an entry with
    [result.get(key, default)], so that a dict answers with the stored
    or the default text, and any other object, having no [get]
    attribute, raises. [type_name] is the name of the type of such an
    object. *)
Inductive WebResult : Type :=
| WebDict (fields : gmap string string)
| WebOther (type_name : string).

(** Modelled from the spec: [RetrievalResult], declared in
    [memory/base_memory.py], which is not among the sources. The fields
    are those of section 3 of the specification and those the code
    reads. [facts] lists the entries of the dict, each key once, in
    insertion order, which is the order [items()] walks them in; a value
    is the text its formatting gives. Every field defaults to empty. *)
Record RetrievalResult : Type := {
  memories : list string;
  facts : list (string * string);
  web_results : list WebResult;
  sources : list string;
  metadata : gmap string pyval
}.

(** [RetrievalResult()] *)
Definition RetrievalResult_default : RetrievalResult :=
  {| memories := []; facts := []; web_results := []; sources := []; metadata := ∅ |}.

(** The memory system held by the manager ([GraphMemorySystem], in
    [memory/graph_memory.py], not among the sources), taken as a
    parameter: the outcome of each of its methods on the given
    arguments, and whether its three handles are set. *)
Record MemorySystem : Type := {
  retrieve_context : string → nat → Result RetrievalResult;
  store_conversation : string → string → gmap string pyval → Result unit;
  clear : Result unit;
  get_stats : Result (gmap string pyval);
  collection_present : bool;
  openai_client_present : bool;
  chroma_client_present : bool
}.

End BaseMemory.

(** ** [memory/memory_manager.py] *)

Module MemoryManager.
Import BaseMemory.

Record t : Type := {
  memory_type : string;
  memory_system : MemorySystem
}.

(** [await loop.run_in_executor(None, f, *args)]: the call runs on a
    worker thread, its value or its exception comes back to the awaiter. *)
Definition run_in_executor {A} (call : Result A) : Result A := call.

(** [if value: d[key] = value], for an optional string and for an
    optional int. *)
Definition set_if_str (key : string) (value : option string)
    (d : gmap string pyval) : gmap string pyval :=
  match value with
  | Some (String c s) => <[key := VStr (String c s)]> d
  | _ => d
  end.

Definition set_if_int (key : string) (value : option Z)
    (d : gmap string pyval) : gmap string pyval :=
  match value with
  | Some z => if truthy_int value then <[key := VInt z]> d else d
  | None => d
  end.

(** The [context] dict assembled by both [store_conversation_*]. *)
Definition store_context (conversation_id : option string)
    (user_id digital_human_id : option Z) : gmap string pyval :=
  let context : gmap string pyval := ∅ in
  let context := set_if_str "conversation_id" conversation_id context in
  let context := set_if_int "user_id" user_id context in
  let context := set_if_int "digital_human_id" digital_human_id context in
  context.

(** [result.metadata['user_id'] = user_id] and its sibling, under their
    [if] guards; the other fields of [result] stay as they are. *)
Definition tag_metadata (result : RetrievalResult)
    (user_id digital_human_id : option Z) : RetrievalResult :=
  let md := metadata result in
  let md := set_if_int "user_id" user_id md in
  let md := set_if_int "digital_human_id" digital_human_id md in
  {| memories := memories result; facts := facts result;
     web_results := web_results result; sources := sources result;
     metadata := md |}.

Definition store_conversation_async (self : t) (user_message assistant_response : string)
    (conversation_id : option string) (user_id digital_human_id : option Z) : Result bool :=
  try_except
    (let context := store_context conversation_id user_id digital_human_id in
     _ ← run_in_executor
           (store_conversation (memory_system self) user_message assistant_response context);
     mret true)
    (λ _, mret false).

Definition retrieve_context_async (self : t) (query : string) (max_results : nat)
    (user_id digital_human_id : option Z) : Result RetrievalResult :=
  try_except
    (result ← run_in_executor (retrieve_context (memory_system self) query max_results);
     mret (tag_metadata result user_id digital_human_id))
    (λ _, mret RetrievalResult_default).

Definition store_conversation_sync (self : t) (user_message assistant_response : string)
    (conversation_id : option string) (user_id digital_human_id : option Z) : Result bool :=
  try_except
    (let context := store_context conversation_id user_id digital_human_id in
     _ ← store_conversation (memory_system self) user_message assistant_response context;
     mret true)
    (λ _, mret false).

Definition retrieve_context_sync (self : t) (query : string) (max_results : nat)
    (user_id digital_human_id : option Z) : Result RetrievalResult :=
  try_except
    (result ← retrieve_context (memory_system self) query max_results;
     mret (tag_metadata result user_id digital_human_id))
    (λ _, mret RetrievalResult_default).

Definition clear_memory_async (self : t) (user_id : option Z) : Result bool :=
  try_except
    (_ ← run_in_executor (clear (memory_system self)); mret true)
    (λ _, mret false).

(** The dict returned by [health_check]. *)
Inductive Health : Type :=
| Healthy (memory_type : string)
    (collection_available openai_client_available chroma_client_available : bool)
    (conversation_count : pyval)
| Unhealthy (memory_type : string) (error : string).

(** [health['status']] *)
Definition status (h : Health) : string :=
  match h with
  | Healthy _ _ _ _ _ => "healthy"
  | Unhealthy _ _ => "unhealthy"
  end.

Definition health_check (self : t) : Result Health :=
  try_except
    (test_result ← get_stats (memory_system self);
     mret (Healthy (memory_type self)
             (collection_present (memory_system self))
             (openai_client_present (memory_system self))
             (chroma_client_present (memory_system self))
             (default (VInt 0) (test_result !! "conversation_count"))))
    (λ e, mret (Unhealthy (memory_type self) e)).

(** The dict returned by [get_memory_stats]: the stats of the memory
    system with one more key, or the two-key dict of the [except]
    branch. *)
Definition get_memory_stats (self : t) : Result (gmap string pyval) :=
  try_except
    (stats ← get_stats (memory_system self);
     let stats := <["memory_manager_type" := VStr (memory_type self)]> stats in
     mret stats)
    (λ e, mret {["error" := VStr e;
                 "memory_manager_type" := VStr (memory_type self)]}).

End MemoryManager.

(** ** [search/web_search_service.py], the OpenAI client (interfaces) *)

(** The web search service held by the RAG service
    ([search/web_search_service.py], not among the sources), taken as a
    parameter: the dict returned by its [health_check()], or the
    exception the call raises. *)
Record WebSearchService : Type := {
  search_health_check : Result (gmap string pyval)
}.

(** [openai_client.chat.completions.create(model=, messages=,
    max_tokens=, temperature=)]: messages are (role, content) pairs; the
    answer is the list of [choices[i].message.content], each possibly
    [None]. *)
Record OpenAIClient : Type := {
  create : string → list (string * string) → nat → option QArith_base.Q →
           Result (list (option string))
}.

(** ** [rag/rag_service.py] *)

Module RAGService.

Section WithFloat.
Context {float : Type} `{FloatOps float}.

Record RAGResponse : Type := {
  response : string;
  sources : list string;
  memory_used : nat;
  web_results : nat;
  facts_retrieved : nat;
  processing_time : float;
  metadata : gmap string pyval;
  conversation_id : option string;
  error : option string
}.

Record t : Type := {
  memory_manager : MemoryManager.t;
  search_service : WebSearchService;
  openai_client : OpenAIClient;
  model : string
}.

Definition apology : string :=
  "I apologize, but I encountered an error processing your message. Please try again.".

Definition default_system_prompt : string :=
  "You are a helpful AI assistant with access to conversation memory and current web information.

Use the provided context to give accurate, helpful responses. If you use information from web search results, mention that you found recent information. If you reference previous conversations, acknowledge the context naturally.

Be conversational, helpful, and accurate. Don't mention technical details about your memory system or processing unless specifically asked.".

(** [result.get(key, default)] *)
Definition web_get (result : BaseMemory.WebResult) (key dflt : string) : Result string :=
  match result with
  | BaseMemory.WebDict fields => Ok (default dflt (fields !! key))
  | BaseMemory.WebOther type_name =>
      Raise ("'" +:+ type_name +:+ "' object has no attribute 'get'")
  end.

(** [_generate_response_sync], lines 208-230: the list [context_parts]
    after the three blocks of appends. *)
Definition context_parts (retrieval_result : BaseMemory.RetrievalResult) : Result (list string) :=
  let context_parts : list string := [] in
  context_parts ←
    (if truthy_list (BaseMemory.memories retrieval_result) then
       for_each
         (λ parts '(i, memory), mret (parts ++ [str_of_nat i +:+ ". " +:+ memory]))
         (enumerate (take 3 (BaseMemory.memories retrieval_result)) 1)
         (context_parts ++ ["Previous conversation context:"])
     else mret context_parts);
  context_parts ←
    (if truthy_list (BaseMemory.facts retrieval_result) then
       for_each
         (λ parts '(key, value),
            if negb (startswith "_" key)
            then mret (parts ++ ["- " +:+ key +:+ ": " +:+ value])
            else mret parts)
         (BaseMemory.facts retrieval_result)
         (context_parts ++ [newline +:+ "Known facts about the user:"])
     else mret context_parts);
  context_parts ←
    (if truthy_list (BaseMemory.web_results retrieval_result) then
       for_each
         (λ parts '(i, result),
            title ← web_get result "title" "No title";
            snippet ← web_get result "snippet" "No description";
            mret (parts ++ [str_of_nat i +:+ ". " +:+ title +:+ ": " +:+ snippet]))
         (enumerate (take 3 (BaseMemory.web_results retrieval_result)) 1)
         (context_parts ++ [newline +:+ "Recent information from web search:"])
     else mret context_parts);
  mret context_parts.

(** Line 241: the text of the context block. *)
Definition context_text (retrieval_result : BaseMemory.RetrievalResult) : Result string :=
  context_parts ← context_parts retrieval_result;
  mret (if truthy_list context_parts then join newline context_parts
        else "No additional context available.").

(** Lines 243-245. *)
Definition user_prompt (context_text user_message : string) : string :=
  "Context:" +:+ newline +:+ context_text +:+ newline +:+ newline +:+
  "User message: " +:+ user_message +:+ newline +:+ newline +:+
  "Please respond naturally and helpfully based on the context provided.".

(** [response.choices[0].message.content] up to the call of [strip]. *)
Definition first_content (choices : list (option string)) : Result string :=
  match choices with
  | [] => Raise "list index out of range"
  | None :: _ => Raise "'NoneType' object has no attribute 'strip'"
  | Some content :: _ => Ok content
  end.

(** Lines 264-268. *)
Definition fallback_response (retrieval_result : BaseMemory.RetrievalResult)
    (user_message : string) : string :=
  if truthy_list (BaseMemory.memories retrieval_result) then
    "Based on our previous conversations, I understand you're asking about: "
    +:+ user_message +:+
    ". However, I'm having trouble accessing my language model right now. Could you please try again?"
  else
    "I understand you're asking about: " +:+ user_message +:+
    ". I'm experiencing some technical difficulties with my response generation. Please try again in a moment.".

Definition _generate_response_sync (self : t) (user_message : string)
    (retrieval_result : BaseMemory.RetrievalResult) (system_prompt : option string)
    : Result string :=
  context_text ← context_text retrieval_result;
  let final_system_prompt := str_or system_prompt default_system_prompt in
  let user_prompt := user_prompt context_text user_message in
  try_except
    (choices ← create (openai_client self) (model self)
                 [("system", final_system_prompt); ("user", user_prompt)]
                 500 (Some (QArith_base.Qmake 7 10));
     content ← first_content choices;
     mret (strip content))
    (λ _, mret (fallback_response retrieval_result user_message)).

Definition _generate_response_async (self : t) (user_message : string)
    (retrieval_result : BaseMemory.RetrievalResult) (system_prompt : option string)
    : Result string :=
  MemoryManager.run_in_executor
    (_generate_response_sync self user_message retrieval_result system_prompt).

(** The response built by the [except] branch of both entry points. *)
Definition failure_response (e : string) (conversation_id : option string)
    (processing_time : float) : RAGResponse :=
  let error_msg := "RAG processing failed: " +:+ e in
  {| response := apology;
     sources := [];
     memory_used := 0;
     web_results := 0;
     facts_retrieved := 0;
     processing_time := processing_time;
     metadata := ∅;
     conversation_id := conversation_id;
     error := Some error_msg |}.

(** The [try] block of [chat_async]. [end_time] is the reading of
    [time.time()] after the three steps. *)
Definition chat_async_try (self : t) (user_message : string)
    (conversation_id : option string) (user_id digital_human_id : option Z)
    (system_prompt : option string) (start_time end_time : float) : Result RAGResponse :=
  retrieval_result ←
    MemoryManager.retrieve_context_async (memory_manager self)
      user_message 5 user_id digital_human_id;
  response_text ←
    _generate_response_async self user_message retrieval_result system_prompt;
  _ ← MemoryManager.store_conversation_async (memory_manager self)
        user_message response_text conversation_id user_id digital_human_id;
  let processing_time := float_sub end_time start_time in
  mret {| response := response_text;
          sources := BaseMemory.sources retrieval_result;
          memory_used := length (BaseMemory.memories retrieval_result);
          web_results := length (BaseMemory.web_results retrieval_result);
          facts_retrieved := length (BaseMemory.facts retrieval_result);
          processing_time := float_round2 processing_time;
          metadata := BaseMemory.metadata retrieval_result;
          conversation_id := conversation_id;
          error := None |}.

(** [start_time] is the reading on entry, [end_time] the one taken on
    the path that returns. *)
Definition chat_async (self : t) (user_message : string)
    (conversation_id : option string) (user_id digital_human_id : option Z)
    (system_prompt : option string) (start_time end_time : float) : Result RAGResponse :=
  try_except
    (chat_async_try self user_message conversation_id user_id digital_human_id
       system_prompt start_time end_time)
    (λ e,
       let processing_time := float_sub end_time start_time in
       mret (failure_response e conversation_id processing_time)).

Definition chat_sync_try (self : t) (user_message : string)
    (conversation_id : option string) (user_id digital_human_id : option Z)
    (system_prompt : option string) (start_time end_time : float) : Result RAGResponse :=
  retrieval_result ←
    MemoryManager.retrieve_context_sync (memory_manager self)
      user_message 5 user_id digital_human_id;
  response_text ←
    _generate_response_sync self user_message retrieval_result system_prompt;
  _ ← MemoryManager.store_conversation_sync (memory_manager self)
        user_message response_text conversation_id user_id digital_human_id;
  let processing_time := float_sub end_time start_time in
  mret {| response := response_text;
          sources := BaseMemory.sources retrieval_result;
          memory_used := length (BaseMemory.memories retrieval_result);
          web_results := length (BaseMemory.web_results retrieval_result);
          facts_retrieved := length (BaseMemory.facts retrieval_result);
          processing_time := float_round2 processing_time;
          metadata := BaseMemory.metadata retrieval_result;
          conversation_id := conversation_id;
          error := None |}.

Definition chat_sync (self : t) (user_message : string)
    (conversation_id : option string) (user_id digital_human_id : option Z)
    (system_prompt : option string) (start_time end_time : float) : Result RAGResponse :=
  try_except
    (chat_sync_try self user_message conversation_id user_id digital_human_id
       system_prompt start_time end_time)
    (λ e,
       let processing_time := float_sub end_time start_time in
       mret (failure_response e conversation_id processing_time)).

End WithFloat.

Arguments RAGResponse float : clear implicits.

(** The dict returned by [health_check]. *)
Inductive Health : Type :=
| Report (status : string) (memory_manager_health : MemoryManager.Health)
    (search_service_health : gmap string pyval) (openai_client_healthy : bool)
    (model_name : string) (capabilities_available : bool)
| Failure (error : string).

(** [health['status']] *)
Definition status (h : Health) : string :=
  match h with
  | Report s _ _ _ _ _ => s
  | Failure _ => "unhealthy"
  end.

(** [d[key]] on a dict. *)
Definition getitem (d : gmap string pyval) (key : string) : Result pyval :=
  match d !! key with
  | Some v => Ok v
  | None => Raise ("'" +:+ key +:+ "'")
  end.

(** Lines 306-315: the probe of the OpenAI connection, under its bare
    [except]. *)
Definition openai_probe (self : t) : bool :=
  let openai_healthy := true in
  match create (openai_client self) (model self) [("user", "test")] 1 None with
  | Ok _ => true
  | Raise _ => false
  end.

Definition health_check (self : t) : Result Health :=
  try_except
    (memory_health ← MemoryManager.health_check (memory_manager self);
     search_health ← search_health_check (search_service self);
     let openai_healthy := openai_probe self in
     let overall_status := "healthy" in
     degraded ←
       (if negb (String.eqb (MemoryManager.status memory_health) "healthy") then mret true
        else
          s ← getitem search_health "status";
          if bool_decide (s = VStr "unhealthy") then mret true
          else mret (negb openai_healthy));
     let overall_status := if degraded : bool then "degraded" else overall_status in
     unhealthy ←
       (if negb openai_healthy then
          s ← getitem search_health "status";
          mret (bool_decide (s = VStr "unhealthy"))
        else mret false);
     let overall_status := if unhealthy : bool then "unhealthy" else overall_status in
     mret (Report overall_status memory_health search_health openai_healthy
             (model self) (negb (String.eqb overall_status "unhealthy"))))
    (λ e, mret (Failure e)).

(** The dict returned by [get_stats]. *)
Inductive Stats : Type :=
| StatsReport (service_name model_name : string)
    (memory_system_stats search_service_stats : gmap string pyval)
    (capabilities : list string)
| StatsError (error service_name : string).

Definition capabilities : list string :=
  ["Natural conversation";
   "Memory of past conversations";
   "Fact extraction and storage";
   "Web search for current information";
   "LangGraph-inspired processing";
   "Intent classification";
   "Conditional tool routing";
   "GraphRAG ready"].

(** [get_search_stats] is the outcome of
    [self.search_service.get_search_stats()]. *)
Definition get_stats (self : t) (get_search_stats : Result (gmap string pyval))
    : Result Stats :=
  try_except
    (memory_stats ← MemoryManager.get_memory_stats (memory_manager self);
     search_stats ← get_search_stats;
     mret (StatsReport "RAG Service" (model self) memory_stats search_stats capabilities))
    (λ e, mret (StatsError e "RAG Service")).

Definition clear_memory_async (self : t) (user_id : option Z) : Result bool :=
  MemoryManager.clear_memory_async (memory_manager self) user_id.

Definition clear_memory_sync (self : t) (user_id : option Z) : Result bool :=
  try_except
    (_ ← BaseMemory.clear (MemoryManager.memory_system (memory_manager self));
     mret true)
    (λ _, mret false).

End RAGService.

(** ** [rag/conversation_service.py] *)

Module ConversationService.

Section WithFloat.
Context {float : Type} `{FloatOps float}.

Record t : Type := {
  rag_service : RAGService.t
}.

(** The dicts that [stream_response_async] serialises, one per yielded
    [data: <json>] frame. *)
Inductive WireEvent : Type :=
| Metadata (conversation_id : string) (sources : list string)
    (memory_used web_results : nat) (processing_time : float)
| Chunk (content : string) (chunk_id : nat)
| Complete (conversation_id : string) (total_chunks : nat)
| Error (error : string) (conversation_id : string).

(** The dict built by [_format_response]. *)
Record ResponseMetadata : Type := {
  sources : list string;
  memory_used : nat;
  web_results : nat;
  facts_retrieved : nat;
  processing_time : float;
  rag_metadata : gmap string pyval;
  user_id : option Z;
  digital_human_id : option Z
}.

Record ResponseData : Type := {
  message : string;
  conversation_id : option string;
  timestamp : string;
  metadata : ResponseMetadata
}.

(** The two shapes of dict that [process_message_async] returns: the
    formatted response, with the two streaming flags when they were
    added, and the dict of its own [except] branch. *)
Inductive ApiResponse : Type :=
| Formatted (success : bool) (data : ResponseData) (error : option string)
    (streaming stream_complete : option bool)
| Failed (success : bool) (error message conversation_id : string).

(** [result['success']] and [result['error']] *)
Definition success (r : ApiResponse) : bool :=
  match r with
  | Formatted s _ _ _ _ => s
  | Failed s _ _ _ => s
  end.

Definition error (r : ApiResponse) : option string :=
  match r with
  | Formatted _ _ e _ _ => e
  | Failed _ e _ _ => Some e
  end.

(** [utcnow] is [datetime.utcnow().isoformat()]. *)
Definition _format_response (rag_response : RAGService.RAGResponse float)
    (user_id digital_human_id : option Z) (utcnow : string) : ApiResponse :=
  Formatted true
    {| message := RAGService.response rag_response;
       conversation_id := RAGService.conversation_id rag_response;
       timestamp := utcnow;
       metadata :=
         {| sources := RAGService.sources rag_response;
            memory_used := RAGService.memory_used rag_response;
            web_results := RAGService.web_results rag_response;
            facts_retrieved := RAGService.facts_retrieved rag_response;
            processing_time := RAGService.processing_time rag_response;
            rag_metadata := RAGService.metadata rag_response;
            user_id := user_id;
            digital_human_id := digital_human_id |} |}
    (RAGService.error rag_response)
    None None.

Definition _process_streaming_message (self : t) (message : string)
    (user_id digital_human_id : option Z) (conversation_id : string)
    (system_prompt : option string) (start_time end_time : float) (utcnow : string)
    : Result ApiResponse :=
  rag_response ←
    RAGService.chat_async (rag_service self) message (Some conversation_id)
      user_id digital_human_id system_prompt start_time end_time;
  match _format_response rag_response user_id digital_human_id utcnow with
  | Formatted s d e _ _ => mret (Formatted s d e (Some true) (Some true))
  | other => mret other
  end.

(** [uuid4] is [str(uuid.uuid4())], used when no conversation id came
    with the call. *)
Definition process_message_async (self : t) (message : string)
    (user_id digital_human_id : option Z) (conversation_id : option string)
    (system_prompt : option string) (stream : bool)
    (uuid4 : string) (start_time end_time : float) (utcnow : string)
    : Result ApiResponse :=
  let conversation_id := str_or conversation_id uuid4 in
  try_except
    (if stream then
       _process_streaming_message self message user_id digital_human_id
         conversation_id system_prompt start_time end_time utcnow
     else
       rag_response ←
         RAGService.chat_async (rag_service self) message (Some conversation_id)
           user_id digital_human_id system_prompt start_time end_time;
       mret (_format_response rag_response user_id digital_human_id utcnow))
    (λ e, mret (Failed false e "Failed to process conversation message" conversation_id)).

(** Lines 129-138: the chunk events, one per index of the [range]. The
    [asyncio.sleep] between two of them only paces the consumer. *)
Definition chunk_events (response_text : string) (chunk_size : nat) : list WireEvent :=
  (λ i, Chunk (slice response_text i (i + chunk_size)) (i / chunk_size))
    <$> range 0 (String.length response_text) chunk_size.

(** The events the generator yields until it is exhausted. Past the
    call of [chat_async] the [try] block only slices a [str], divides
    and serialises ints, strings and a float, so the [except] branch is
    entered from that call alone, before anything was yielded. *)
Definition stream_response_async (self : t) (message : string)
    (user_id digital_human_id : option Z) (conversation_id : option string)
    (system_prompt : option string)
    (uuid4 : string) (start_time end_time : float) : list WireEvent :=
  let conversation_id := str_or conversation_id uuid4 in
  match
    RAGService.chat_async (rag_service self) message (Some conversation_id)
      user_id digital_human_id system_prompt start_time end_time
  with
  | Ok rag_response =>
      let response_text := RAGService.response rag_response in
      let chunk_size := 20 in
      [Metadata conversation_id (RAGService.sources rag_response)
         (RAGService.memory_used rag_response)
         (RAGService.web_results rag_response)
         (RAGService.processing_time rag_response)]
      ++ chunk_events response_text chunk_size
      ++ [Complete conversation_id
            ((String.length response_text + chunk_size - 1) / chunk_size)]
  | Raise e => [Error e conversation_id]
  end.

End WithFloat.

Arguments WireEvent float : clear implicits.
Arguments ApiResponse float : clear implicits.

(** The dict returned by [get_stats]. *)
Inductive ServiceStats : Type :=
| ServiceStatsReport (service_name : string) (rag_pipeline : bool)
    (features : list string) (rag_service_stats : RAGService.Stats)
| ServiceStatsError (service_name error : string).

Definition features : list string :=
  ["RAG-enhanced responses";
   "Memory persistence";
   "Web search integration";
   "Streaming support";
   "Context awareness";
   "Multi-user support";
   "Digital human integration"].

(** [get_search_stats] is the outcome of the search service's
    [get_search_stats()], which [RAGService.get_stats] calls. *)
Definition get_stats (self : t) (get_search_stats : Result (gmap string pyval))
    : Result ServiceStats :=
  try_except
    (rag_stats ← RAGService.get_stats (rag_service self) get_search_stats;
     mret (ServiceStatsReport "Enhanced Conversation Service" true features rag_stats))
    (λ e, mret (ServiceStatsError "Enhanced Conversation Service" e)).

(** The dict returned by [health_check]. *)
Inductive ServiceHealth : Type :=
| ServiceHealthReport (status service_name : string)
    (rag_service_health : RAGService.Health) (features_available : bool)
| ServiceHealthError (status service_name error : string).

(** [health['status']] *)
Definition service_status (h : ServiceHealth) : string :=
  match h with
  | ServiceHealthReport s _ _ _ => s
  | ServiceHealthError s _ _ => s
  end.

(** [rag_health["capabilities_available"]]: the dict of the [except]
    branch of [RAGService.health_check] has no such key. *)
Definition capabilities_available (rag_health : RAGService.Health) : Result bool :=
  match rag_health with
  | RAGService.Report _ _ _ _ _ available => Ok available
  | RAGService.Failure _ => Raise "'capabilities_available'"
  end.

Definition health_check (self : t) : Result ServiceHealth :=
  try_except
    (rag_health ← RAGService.health_check (rag_service self);
     let status := RAGService.status rag_health in
     available ← capabilities_available rag_health;
     mret (ServiceHealthReport status "Enhanced Conversation Service"
             rag_health available))
    (λ e, mret (ServiceHealthError "unhealthy" "Enhanced Conversation Service" e)).

(** The dict returned by [clear_memory_async]. *)
Inductive ClearResult : Type :=
| ClearReport (success : bool) (message : string) (user_id : option Z).

Definition clear_memory_async (self : t) (user_id : option Z) : Result ClearResult :=
  try_except
    (success ← RAGService.clear_memory_async (rag_service self) user_id;
     mret (ClearReport success
             (if success : bool then "Memory cleared successfully"
              else "Failed to clear memory")
             user_id))
    (λ e, mret (ClearReport false ("Error clearing memory: " +:+ e) user_id)).

End ConversationService.

(** ** [services/conversation_service.py] *)

Module AppConversationService.

Section WithFloat.
Context {float : Type}.

(** The dicts that [process_stream] serialises for the client. *)
Inductive ClientEvent : Type :=
| Token (content : string)
| RagMetadata (metadata : ConversationService.WireEvent float)
| StreamError (content : string).

(** [send_message_stream], the inner [process_stream]: the frames of
    the RAG stream are read in order, each one back into the dict it
    serialises. The result is the events yielded and the value of
    [full_response] when the generator ends. *)
Fixpoint process_stream (frames : list (ConversationService.WireEvent float))
    (full_response : string) : list ClientEvent * string :=
  match frames with
  | [] => ([], full_response)
  | data :: rest =>
      match data with
      | ConversationService.Chunk content _ =>
          let full_response := full_response +:+ content in
          let '(events, full_response) := process_stream rest full_response in
          (Token content :: events, full_response)
      | ConversationService.Metadata _ _ _ _ _ =>
          let '(events, full_response) := process_stream rest full_response in
          (RagMetadata data :: events, full_response)
      | ConversationService.Complete _ _ => ([], full_response)
      | ConversationService.Error error _ => ([StreamError error], full_response)
      end
  end.

End WithFloat.

Arguments ClientEvent float : clear implicits.

(** The dict returned by [rag_health_check]. *)
Inductive RagHealth : Type :=
| RagHealthOf (health : ConversationService.ServiceHealth)
| RagHealthError (status error : string) (rag_pipeline : bool).

Definition rag_health_check (rag_service : ConversationService.t) : Result RagHealth :=
  try_except
    (health ← ConversationService.health_check rag_service; mret (RagHealthOf health))
    (λ e, mret (RagHealthError "unhealthy" e true)).

(** The dict returned by [get_rag_stats]. *)
Inductive RagStats : Type :=
| RagStatsOf (stats : ConversationService.ServiceStats)
| RagStatsError (error : string) (rag_pipeline : bool).

Definition get_rag_stats (rag_service : ConversationService.t)
    (get_search_stats : Result (gmap string pyval)) : Result RagStats :=
  try_except
    (stats ← ConversationService.get_stats rag_service get_search_stats;
     mret (RagStatsOf stats))
    (λ e, mret (RagStatsError e true)).

End AppConversationService.

(** ** Reading an event sequence *)

Module Events.

Section WithFloat.
Context {float : Type}.

(** The [content] fields of the chunk events, in emission order. *)
Definition chunk_contents (events : list (ConversationService.WireEvent float)) : list string :=
  omap (λ ev, match ev with
              | ConversationService.Chunk content _ => Some content
              | _ => None
              end) events.

(** The [chunk_id] fields of the chunk events, in emission order. *)
Definition chunk_ids (events : list (ConversationService.WireEvent float)) : list nat :=
  omap (λ ev, match ev with
              | ConversationService.Chunk _ chunk_id => Some chunk_id
              | _ => None
              end) events.

Definition is_chunk (ev : ConversationService.WireEvent float) : bool :=
  match ev with
  | ConversationService.Chunk _ _ => true
  | _ => false
  end.

Definition is_error (ev : ConversationService.WireEvent float) : bool :=
  match ev with
  | ConversationService.Error _ _ => true
  | _ => false
  end.

End WithFloat.

End Events.

(** ** Sample collaborators, for the worked examples *)

Module Sample.
Import BaseMemory.

(** Clock readings in hundredths of a second, which [round(x, 2)]
    leaves as they are. *)
#[global] Instance centiseconds : FloatOps Z :=
  {| float_sub := Z.sub; float_round2 := λ x, x |}.

Definition memory (retrieved : Result RetrievalResult) (stored : Result unit)
    : MemoryManager.t :=
  {| MemoryManager.memory_type := "graph";
     MemoryManager.memory_system :=
       {| retrieve_context := λ _ _, retrieved;
          store_conversation := λ _ _ _, stored;
          clear := Ok tt;
          get_stats := Ok ∅;
          collection_present := true;
          openai_client_present := true;
          chroma_client_present := true |} |}.

Definition service (retrieved : Result RetrievalResult)
    (generated : Result (list (option string))) (stored : Result unit)
    (search : Result (gmap string pyval)) : RAGService.t :=
  {| RAGService.memory_manager := memory retrieved stored;
     RAGService.search_service := {| search_health_check := search |};
     RAGService.openai_client := {| create := λ _ _ _ _, generated |};
     RAGService.model := "gpt-4o-mini" |}.

Definition conversation (rag : RAGService.t) : ConversationService.t :=
  {| ConversationService.rag_service := rag |}.

(** One memory, a public and an internal fact, two web hits. *)
Definition tea : RetrievalResult :=
  {| memories := ["likes tea"];
     facts := [("name", "Ann"); ("_seen", "3")];
     web_results := [WebDict {["title" := "Tea"; "snippet" := "A drink"]}; WebDict ∅];
     sources := ["memory"];
     metadata := ∅ |}.

(** A web hit that is a bare string instead of a dict. *)
Definition malformed : RetrievalResult :=
  {| memories := []; facts := []; web_results := [WebOther "str"];
     sources := ["web"]; metadata := ∅ |}.

End Sample.

(** ** The layout of the context block, as the specification words it *)

Module Layout.

(** Up to three memory snippets, numbered from 1. *)
Definition memory_lines (memories : list string) : list string :=
  imap (λ i memory, str_of_nat (S i) +:+ ". " +:+ memory) (take 3 memories).

(** Every fact whose key does not start with the internal marker, as a
    [- key: value] line. *)
Definition fact_lines (facts : list (string * string)) : list string :=
  (λ kv, "- " +:+ kv.1 +:+ ": " +:+ kv.2)
    <$> filter (λ kv, startswith "_" kv.1 = false) facts.

(** Up to three web results, numbered from 1, as [title: snippet]. *)
Definition web_lines (results : list (gmap string string)) : list string :=
  imap (λ i fields,
          str_of_nat (S i) +:+ ". " +:+ default "No title" (fields !! "title")
          +:+ ": " +:+ default "No description" (fields !! "snippet"))
       (take 3 results).

(** Memory block, then fact block, then web block, each under its
    heading, one item per line. *)
Definition context_block (memories : list string) (facts : list (string * string))
    (results : list (gmap string string)) : string :=
  join newline
    (["Previous conversation context:"] ++ memory_lines memories
     ++ [newline +:+ "Known facts about the user:"] ++ fact_lines facts
     ++ [newline +:+ "Recent information from web search:"] ++ web_lines results).

End Layout.

(** * Properties *)

(** ** Strings and ranges *)

Section StringFacts.

Lemma append_empty_r (s : string) : s +:+ "" = s.
Proof.
  induction s as [|a s IH]; [done |].
  change (String a (s +:+ "") = String a s). by rewrite IH.
Qed.

Lemma substring_empty (n m : nat) : String.substring n m "" = "".
Proof. by destruct n, m. Qed.

Lemma substring_skip (n k m : nat) (s : string) :
  String.substring (n + k) m s = String.substring k m (skip n s).
Proof.
  revert s. induction n as [|n IH]; intros s; simpl; [done |].
  destruct s as [|a s]; [by rewrite !substring_empty | exact (IH s)].
Qed.

Lemma substring_then_skip (n : nat) (s : string) :
  String.substring 0 n s +:+ skip n s = s.
Proof.
  revert s. induction n as [|n IH]; intros [|a s]; try reflexivity.
  change (String a (String.substring 0 n s +:+ skip n s) = String a s).
  by rewrite IH.
Qed.

Lemma skip_length (n : nat) (s : string) :
  String.length (skip n s) = String.length s - n.
Proof.
  revert s. induction n as [|n IH]; intros [|a s]; try reflexivity.
  exact (IH s).
Qed.

Lemma length_zero_empty (s : string) : String.length s = 0 → s = "".
Proof. by destruct s. Qed.

Lemma concat_empty_cons (x : string) (l : list string) :
  String.concat "" (x :: l) = x +:+ String.concat "" l.
Proof. destruct l as [|y l]; [symmetry; apply append_empty_r | reflexivity]. Qed.

(** Consecutive slices of width [c] that cover [s] put [s] together
    again. *)
Lemma slices_reassemble (c n : nat) (s : string) :
  String.length s ≤ n * c →
  String.concat "" ((λ k, String.substring (k * c) c s) <$> seq 0 n) = s.
Proof.
  revert s. induction n as [|n IH]; intros s Hlen.
  - simpl. symmetry. apply length_zero_empty. lia.
  - rewrite <- cons_seq, <- fmap_S_seq, fmap_cons, concat_empty_cons.
    rewrite <- list_fmap_compose.
    rewrite (list_fmap_ext _ (λ k, String.substring (k * c) c (skip c s)) (seq 0 n)).
    + rewrite IH; [apply substring_then_skip |].
      rewrite skip_length. lia.
    + intros i k _. simpl. apply substring_skip.
Qed.

(** How many steps of width [c] it takes to pass [d]. *)
Lemma div_up_step (c d : nat) :
  0 < c → 0 < d → (d + c - 1) / c = S ((d - c + c - 1) / c).
Proof.
  intros Hc Hd. destruct (decide (c ≤ d)) as [Hle|Hlt].
  - replace (d + c - 1) with ((d - c + c - 1) + 1 * c) by lia.
    rewrite Nat.div_add by lia. lia.
  - replace (d - c + c - 1) with (c - 1) by lia.
    rewrite (Nat.div_small (c - 1)) by lia.
    replace (d + c - 1) with ((d - 1) + 1 * c) by lia.
    rewrite Nat.div_add by lia. rewrite Nat.div_small by lia. done.
Qed.

Lemma range_loop_closed (c fuel i stop : nat) :
  0 < c → stop - i ≤ fuel →
  range_loop fuel i stop c = (λ k, i + k * c) <$> seq 0 ((stop - i + c - 1) / c).
Proof.
  intros Hc. revert i. induction fuel as [|fuel IH]; intros i Hfuel.
  - replace (stop - i) with 0 by lia. simpl.
    rewrite Nat.div_small by lia. done.
  - simpl. destruct (Nat.ltb_spec i stop) as [Hlt|Hge].
    + rewrite IH by lia.
      rewrite (div_up_step c (stop - i)) by lia.
      rewrite <- cons_seq, <- fmap_S_seq, fmap_cons, <- list_fmap_compose.
      replace (stop - (i + c)) with (stop - i - c) by lia.
      f_equal; [lia |]. apply list_fmap_ext. intros _ k _. simpl. lia.
    + replace (stop - i) with 0 by lia. simpl.
      rewrite Nat.div_small by lia. done.
Qed.

Lemma range_closed (c stop : nat) :
  0 < c → range 0 stop c = (λ k, k * c) <$> seq 0 ((stop + c - 1) / c).
Proof.
  intros Hc. unfold range. rewrite range_loop_closed by lia.
  by rewrite Nat.sub_0_r.
Qed.

End StringFacts.

(** ** The streaming adapter *)

Section Streaming.
Context {float : Type} `{FloatOps float}.

Import ConversationService.

Lemma chunk_events_closed (text : string) (c : nat) :
  0 < c →
  chunk_events (float := float) text c
  = (λ k, Chunk (String.substring (k * c) c text) k)
      <$> seq 0 ((String.length text + c - 1) / c).
Proof.
  intros Hc. unfold chunk_events. rewrite range_closed by done.
  rewrite <- list_fmap_compose. apply list_fmap_ext. intros _ k _. simpl.
  unfold slice. rewrite Nat.div_mul by lia. do 2 f_equal. lia.
Qed.

Lemma chunk_ids_numbered (h : nat → string) (l : list nat) :
  Events.chunk_ids ((λ k, Chunk (float := float) (h k) k) <$> l) = l.
Proof.
  unfold Events.chunk_ids. induction l as [|k l IH]; [done |].
  simpl. f_equal. exact IH.
Qed.

Lemma chunk_contents_numbered (h : nat → string) (l : list nat) :
  Events.chunk_contents ((λ k, Chunk (float := float) (h k) k) <$> l) = h <$> l.
Proof.
  unfold Events.chunk_contents. induction l as [|k l IH]; [done |].
  simpl. f_equal. exact IH.
Qed.

Lemma chunk_ids_framed (first last : WireEvent float) (chunks : list (WireEvent float)) :
  Events.is_chunk first = false → Events.is_chunk last = false →
  Events.chunk_ids (first :: chunks ++ [last]) = Events.chunk_ids chunks.
Proof.
  intros Hfirst Hlast. unfold Events.chunk_ids.
  change (first :: chunks ++ [last]) with ([first] ++ chunks ++ [last]).
  rewrite !omap_app. destruct first, last; try discriminate; simpl; by rewrite app_nil_r.
Qed.

Lemma chunk_contents_framed (first last : WireEvent float) (chunks : list (WireEvent float)) :
  Events.is_chunk first = false → Events.is_chunk last = false →
  Events.chunk_contents (first :: chunks ++ [last]) = Events.chunk_contents chunks.
Proof.
  intros Hfirst Hlast. unfold Events.chunk_contents.
  change (first :: chunks ++ [last]) with ([first] ++ chunks ++ [last]).
  rewrite !omap_app. destruct first, last; try discriminate; simpl; by rewrite app_nil_r.
Qed.

Lemma chunks_are_chunks (h : nat → string) (l : list nat) :
  Forall (λ ev, Events.is_chunk ev = true) ((λ k, Chunk (float := float) (h k) k) <$> l).
Proof. induction l as [|k l IH]; constructor; [done | exact IH]. Qed.

(** C2. When the turn returns the response [r], whose text has [L]
    characters, the adapter yields one metadata event, then
    [n = ceil(L / 20)] chunk events and nothing but chunk events, then
    one complete event that carries [total_chunks = n]. The chunk ids
    are [0, 1, ..., n - 1], and the chunk contents put end to end in the
    order of emission are the text itself. An empty text leaves the
    metadata event and the complete event with [total_chunks = 0]. *)
Theorem stream_chunks_cover_text (self : ConversationService.t) (message : string)
    (user_id digital_human_id : option Z) (conversation_id system_prompt : option string)
    (uuid4 : string) (start_time end_time : float) (r : RAGService.RAGResponse float) :
  RAGService.chat_async (rag_service self) message
    (Some (str_or conversation_id uuid4)) user_id digital_human_id system_prompt
    start_time end_time = Ok r →
  let text := RAGService.response r in
  let L := String.length text in
  let n := (L + 19) / 20 in
  let events :=
    stream_response_async self message user_id digital_human_id conversation_id
      system_prompt uuid4 start_time end_time in
  (L ≤ 20 * n ∧ 20 * n < L + 20) ∧
  (∃ chunks,
     events =
       Metadata (str_or conversation_id uuid4) (RAGService.sources r)
         (RAGService.memory_used r) (RAGService.web_results r)
         (RAGService.processing_time r)
       :: chunks ++ [Complete (str_or conversation_id uuid4) n] ∧
     Forall (λ ev, Events.is_chunk ev = true) chunks ∧
     length chunks = n) ∧
  Events.chunk_ids events = seq 0 n ∧
  String.concat "" (Events.chunk_contents events) = text ∧
  (L = 0 →
   events =
     [Metadata (str_or conversation_id uuid4) (RAGService.sources r)
        (RAGService.memory_used r) (RAGService.web_results r)
        (RAGService.processing_time r);
      Complete (str_or conversation_id uuid4) 0]).
Proof.
  intros Hturn text L n events.
  assert (Hn : L ≤ 20 * n ∧ 20 * n < L + 20).
  { subst n. pose proof (Nat.div_mod_eq (L + 19) 20) as Hdm.
    pose proof (Nat.mod_upper_bound (L + 19) 20). lia. }
  assert (Hev : events =
    Metadata (str_or conversation_id uuid4) (RAGService.sources r)
      (RAGService.memory_used r) (RAGService.web_results r)
      (RAGService.processing_time r)
    :: ((λ k, Chunk (String.substring (k * 20) 20 text) k) <$> seq 0 n)
    ++ [Complete (str_or conversation_id uuid4) n]).
  { subst events. unfold stream_response_async. rewrite Hturn.
    rewrite chunk_events_closed by lia.
    replace (String.length (RAGService.response r) + 20 - 1) with (L + 19)
      by (subst L text; lia).
    reflexivity. }
  split; [exact Hn |]. split; [|split; [|split]].
  - eexists. split; [exact Hev |]. split; [apply chunks_are_chunks |].
    by rewrite length_fmap, length_seq.
  - rewrite Hev, chunk_ids_framed by done. apply chunk_ids_numbered.
  - rewrite Hev, chunk_contents_framed by done.
    rewrite chunk_contents_numbered. apply slices_reassemble. lia.
  - intros HL. rewrite Hev. replace n with 0 by lia. reflexivity.
Qed.

End Streaming.

(** ** The memory manager absorbs the failures of the memory system *)

Section ManagerFacts.

Import BaseMemory MemoryManager.

Lemma retrieve_context_sync_returns (self : MemoryManager.t) (query : string)
    (max_results : nat) (user_id digital_human_id : option Z) :
  ∃ result, retrieve_context_sync self query max_results user_id digital_human_id = Ok result.
Proof.
  unfold retrieve_context_sync, try_except.
  destruct (retrieve_context _ _ _); simpl; eauto.
Qed.

Lemma retrieve_context_async_sync (self : MemoryManager.t) (query : string)
    (max_results : nat) (user_id digital_human_id : option Z) :
  retrieve_context_async self query max_results user_id digital_human_id
  = retrieve_context_sync self query max_results user_id digital_human_id.
Proof. reflexivity. Qed.

Lemma store_conversation_sync_returns (self : MemoryManager.t)
    (user_message assistant_response : string) (conversation_id : option string)
    (user_id digital_human_id : option Z) :
  store_conversation_sync self user_message assistant_response conversation_id
    user_id digital_human_id
  = Ok (match store_conversation (memory_system self) user_message assistant_response
                (store_context conversation_id user_id digital_human_id) with
        | Ok _ => true
        | Raise _ => false
        end).
Proof.
  unfold store_conversation_sync, try_except.
  destruct (store_conversation _ _ _ _); reflexivity.
Qed.

Lemma store_conversation_async_sync (self : MemoryManager.t)
    (user_message assistant_response : string) (conversation_id : option string)
    (user_id digital_human_id : option Z) :
  store_conversation_async self user_message assistant_response conversation_id
    user_id digital_human_id
  = store_conversation_sync self user_message assistant_response conversation_id
      user_id digital_human_id.
Proof. reflexivity. Qed.

Lemma store_conversation_async_returns (self : MemoryManager.t)
    (user_message assistant_response : string) (conversation_id : option string)
    (user_id digital_human_id : option Z) :
  store_conversation_async self user_message assistant_response conversation_id
    user_id digital_human_id
  = Ok (match store_conversation (memory_system self) user_message assistant_response
                (store_context conversation_id user_id digital_human_id) with
        | Ok _ => true
        | Raise _ => false
        end).
Proof.
  unfold store_conversation_async, run_in_executor, try_except.
  destruct (store_conversation _ _ _ _); reflexivity.
Qed.

Lemma tag_metadata_keeps (result : RetrievalResult) (user_id digital_human_id : option Z) :
  memories (tag_metadata result user_id digital_human_id) = memories result
  ∧ facts (tag_metadata result user_id digital_human_id) = facts result
  ∧ web_results (tag_metadata result user_id digital_human_id) = web_results result
  ∧ sources (tag_metadata result user_id digital_human_id) = sources result.
Proof. done. Qed.

End ManagerFacts.

(** ** The orchestrator *)

Section Orchestrator.
Context {float : Type} `{FloatOps float}.

Import RAGService.

Lemma generate_response_async_sync (self : RAGService.t) (user_message : string)
    (retrieval_result : BaseMemory.RetrievalResult) (system_prompt : option string) :
  _generate_response_async self user_message retrieval_result system_prompt
  = _generate_response_sync self user_message retrieval_result system_prompt.
Proof. reflexivity. Qed.

(** Generation raises only where the assembly of the context does. *)
Lemma generate_response_sync_outcome (self : RAGService.t) (user_message : string)
    (retrieval_result : BaseMemory.RetrievalResult) (system_prompt : option string) :
  match context_text retrieval_result with
  | Ok _ => ∃ text, _generate_response_sync self user_message retrieval_result system_prompt = Ok text
  | Raise e => _generate_response_sync self user_message retrieval_result system_prompt = Raise e
  end.
Proof.
  unfold _generate_response_sync.
  destruct (context_text retrieval_result) as [ctx|e]; simpl; [|done].
  unfold try_except.
  destruct (create _ _ _ _ _) as [choices|e]; simpl; [|eauto].
  destruct (first_content choices); simpl; eauto.
Qed.

(** The [try] block raises exactly when the assembly of the context
    raises on what retrieval returned: retrieval, the completion call
    and the write are absorbed where they are made. *)
Lemma chat_async_try_raises (self : RAGService.t) (user_message : string)
    (conversation_id : option string) (user_id digital_human_id : option Z)
    (system_prompt : option string) (start_time end_time : float) (e : string) :
  chat_async_try self user_message conversation_id user_id digital_human_id
    system_prompt start_time end_time = Raise e
  ↔ ∃ rr,
      MemoryManager.retrieve_context_async (memory_manager self) user_message 5
        user_id digital_human_id = Ok rr
      ∧ context_text rr = Raise e.
Proof.
  unfold chat_async_try.
  destruct (retrieve_context_sync_returns (memory_manager self) user_message 5
              user_id digital_human_id) as [rr Hrr].
  change (MemoryManager.retrieve_context_async (memory_manager self) user_message 5
            user_id digital_human_id)
    with (MemoryManager.retrieve_context_sync (memory_manager self) user_message 5
            user_id digital_human_id).
  rewrite Hrr. simpl. unfold _generate_response_async, MemoryManager.run_in_executor.
  pose proof (generate_response_sync_outcome self user_message rr system_prompt) as Hgen.
  destruct (context_text rr) as [ctx|e'] eqn:Hctx.
  - destruct Hgen as [text ->]. simpl.
    rewrite store_conversation_async_returns. simpl.
    split; [done |]. intros (rr' & [= <-] & Hctx'). congruence.
  - rewrite Hgen. simpl. split.
    + intros [= ->]. eauto.
    + intros (rr' & [= <-] & Hctx'). congruence.
Qed.

Lemma chat_try_async_sync (self : RAGService.t) (user_message : string)
    (conversation_id : option string) (user_id digital_human_id : option Z)
    (system_prompt : option string) (start_time end_time : float) :
  chat_sync_try self user_message conversation_id user_id digital_human_id
    system_prompt start_time end_time
  = chat_async_try self user_message conversation_id user_id digital_human_id
      system_prompt start_time end_time.
Proof.
  unfold chat_sync_try, chat_async_try, _generate_response_async.
  unfold MemoryManager.retrieve_context_async, MemoryManager.store_conversation_async.
  unfold MemoryManager.run_in_executor.
  reflexivity.
Qed.

Lemma chat_entry_points_agree (self : RAGService.t) (user_message : string)
    (conversation_id : option string) (user_id digital_human_id : option Z)
    (system_prompt : option string) (start_time end_time : float) :
  chat_sync self user_message conversation_id user_id digital_human_id
    system_prompt start_time end_time
  = chat_async self user_message conversation_id user_id digital_human_id
      system_prompt start_time end_time.
Proof. unfold chat_sync, chat_async. by rewrite chat_try_async_sync. Qed.

(** C4. On the same request, with the same collaborators (the same
    outcome of retrieval, of the completion call and of the write) and
    the same two clock readings, the blocking and the suspending entry
    point return the same value: there is one response [r] that both
    return, so every field agrees, the processing time included, which
    both round on the path that succeeds and both leave as measured on
    the path that fails. *)
Theorem chat_sync_async_identical (self : RAGService.t) (user_message : string)
    (conversation_id : option string) (user_id digital_human_id : option Z)
    (system_prompt : option string) (start_time end_time : float) :
  chat_sync self user_message conversation_id user_id digital_human_id
    system_prompt start_time end_time
  = chat_async self user_message conversation_id user_id digital_human_id
      system_prompt start_time end_time
  ∧ ∃ r,
      chat_sync self user_message conversation_id user_id digital_human_id
        system_prompt start_time end_time = Ok r
      ∧ chat_async self user_message conversation_id user_id digital_human_id
          system_prompt start_time end_time = Ok r
      ∧ (processing_time r = float_round2 (float_sub end_time start_time)
         ∨ processing_time r = float_sub end_time start_time).
Proof.
  split; [apply chat_entry_points_agree |].
  rewrite chat_entry_points_agree. unfold chat_async, try_except.
  destruct (chat_async_try _ _ _ _ _ _ _ _) as [built|e] eqn:Htry.
  - exists built. split; [done |]. split; [done |]. left.
    unfold chat_async_try in Htry.
    destruct (MemoryManager.retrieve_context_async _ _ _ _ _); simpl in Htry; [|done].
    destruct (_generate_response_async _ _ _ _); simpl in Htry; [|done].
    destruct (MemoryManager.store_conversation_async _ _ _ _ _ _); simpl in Htry; [|done].
    by inversion Htry.
  - eexists. split; [done |]. split; [done |]. by right.
Qed.

(** C1. Both entry points return a response on every request. When the
    [try] block raised [e], the response has the fixed apology as its
    text, [error] set to the message built from [e], and the three
    counts at zero; otherwise it is the response the block built. *)
Theorem chat_never_raises (self : RAGService.t) (user_message : string)
    (conversation_id : option string) (user_id digital_human_id : option Z)
    (system_prompt : option string) (start_time end_time : float) :
  (∃ r,
     chat_async self user_message conversation_id user_id digital_human_id
       system_prompt start_time end_time = Ok r ∧
     match chat_async_try self user_message conversation_id user_id digital_human_id
             system_prompt start_time end_time with
     | Ok built => r = built
     | Raise e =>
         response r
         = "I apologize, but I encountered an error processing your message. Please try again."
         ∧ error r = Some ("RAG processing failed: " +:+ e)
         ∧ memory_used r = 0 ∧ web_results r = 0 ∧ facts_retrieved r = 0
     end) ∧
  (∃ r,
     chat_sync self user_message conversation_id user_id digital_human_id
       system_prompt start_time end_time = Ok r ∧
     match chat_sync_try self user_message conversation_id user_id digital_human_id
             system_prompt start_time end_time with
     | Ok built => r = built
     | Raise e =>
         response r
         = "I apologize, but I encountered an error processing your message. Please try again."
         ∧ error r = Some ("RAG processing failed: " +:+ e)
         ∧ memory_used r = 0 ∧ web_results r = 0 ∧ facts_retrieved r = 0
     end).
Proof.
  split.
  - unfold chat_async, try_except.
    destruct (chat_async_try _ _ _ _ _ _ _ _) as [built|e]; eexists; split;
      try reflexivity; simpl; auto.
  - unfold chat_sync, try_except.
    destruct (chat_sync_try _ _ _ _ _ _ _ _) as [built|e]; eexists; split;
      try reflexivity; simpl; auto.
Qed.

End Orchestrator.

(** ** Absorbed failures *)

Section Degraded.
Context {float : Type} `{FloatOps float}.

Import RAGService.

Lemma chat_async_success (self : RAGService.t) (user_message : string)
    (conversation_id : option string) (user_id digital_human_id : option Z)
    (system_prompt : option string) (start_time end_time : float)
    (rr : BaseMemory.RetrievalResult) (text : string) :
  MemoryManager.retrieve_context_async (memory_manager self) user_message 5
    user_id digital_human_id = Ok rr →
  _generate_response_async self user_message rr system_prompt = Ok text →
  chat_async self user_message conversation_id user_id digital_human_id
    system_prompt start_time end_time
  = Ok {| response := text;
          sources := BaseMemory.sources rr;
          memory_used := length (BaseMemory.memories rr);
          web_results := length (BaseMemory.web_results rr);
          facts_retrieved := length (BaseMemory.facts rr);
          processing_time := float_round2 (float_sub end_time start_time);
          metadata := BaseMemory.metadata rr;
          conversation_id := conversation_id;
          error := None |}.
Proof.
  intros Hrr Htext. unfold chat_async, chat_async_try.
  rewrite Hrr. simpl. rewrite Htext. simpl.
  rewrite store_conversation_async_returns.
  reflexivity.
Qed.

(** C7. The retrieval gave [rr], the context of [rr] was assembled, and
    the completion call raised or had no usable first choice. Then both
    entry points return a response with no error, whose text quotes the
    user's message: after a reference to the previous conversations when
    [rr] has memories, in the plain wording otherwise. *)
Theorem generation_failure_falls_back (self : RAGService.t) (user_message : string)
    (conversation_id : option string) (user_id digital_human_id : option Z)
    (system_prompt : option string) (start_time end_time : float)
    (rr : BaseMemory.RetrievalResult) (ctx e : string) :
  MemoryManager.retrieve_context_async (memory_manager self) user_message 5
    user_id digital_human_id = Ok rr →
  context_text rr = Ok ctx →
  (create (openai_client self) (model self)
     [("system", str_or system_prompt default_system_prompt);
      ("user", user_prompt ctx user_message)]
     500 (Some (QArith_base.Qmake 7 10)) ≫= first_content) = Raise e →
  ∃ r,
    chat_async self user_message conversation_id user_id digital_human_id
      system_prompt start_time end_time = Ok r ∧
    chat_sync self user_message conversation_id user_id digital_human_id
      system_prompt start_time end_time = Ok r ∧
    error r = None ∧
    response r =
      match BaseMemory.memories rr with
      | _ :: _ =>
          "Based on our previous conversations, I understand you're asking about: "
          +:+ user_message +:+
          ". However, I'm having trouble accessing my language model right now. Could you please try again?"
      | [] =>
          "I understand you're asking about: " +:+ user_message +:+
          ". I'm experiencing some technical difficulties with my response generation. Please try again in a moment."
      end.
Proof.
  intros Hrr Hctx Hgen.
  assert (Htext : _generate_response_async self user_message rr system_prompt
                  = Ok (fallback_response rr user_message)).
  { unfold _generate_response_async, MemoryManager.run_in_executor,
      _generate_response_sync.
    rewrite Hctx. simpl. unfold try_except.
    destruct (create _ _ _ _ _) as [choices|e']; simpl in *; [|done].
    by rewrite Hgen. }
  pose proof (chat_async_success self user_message conversation_id user_id
                digital_human_id system_prompt start_time end_time rr _ Hrr Htext)
    as Hasync.
  eexists. split; [exact Hasync |].
  split; [exact (eq_trans (chat_entry_points_agree _ _ _ _ _ _ _ _) Hasync) |].
  split; [reflexivity |].
  simpl. unfold fallback_response. by destruct (BaseMemory.memories rr).
Qed.

(** C8. The retrieval gave [rr], generation returned [text], and the
    write to the memory system raised. Then both entry points return a
    response with no error whose text is [text], the same response they
    return when the write goes through; the persistence step itself
    answers [False]. *)
Theorem persistence_failure_keeps_answer (self : RAGService.t) (user_message : string)
    (conversation_id : option string) (user_id digital_human_id : option Z)
    (system_prompt : option string) (start_time end_time : float)
    (rr : BaseMemory.RetrievalResult) (text e : string) :
  MemoryManager.retrieve_context_async (memory_manager self) user_message 5
    user_id digital_human_id = Ok rr →
  _generate_response_async self user_message rr system_prompt = Ok text →
  BaseMemory.store_conversation (MemoryManager.memory_system (memory_manager self))
    user_message text
    (MemoryManager.store_context conversation_id user_id digital_human_id) = Raise e →
  MemoryManager.store_conversation_async (memory_manager self) user_message text
    conversation_id user_id digital_human_id = Ok false ∧
  ∃ r,
    chat_async self user_message conversation_id user_id digital_human_id
      system_prompt start_time end_time = Ok r ∧
    chat_sync self user_message conversation_id user_id digital_human_id
      system_prompt start_time end_time = Ok r ∧
    error r = None ∧
    response r = text ∧
    r = {| response := text;
           sources := BaseMemory.sources rr;
           memory_used := length (BaseMemory.memories rr);
           web_results := length (BaseMemory.web_results rr);
           facts_retrieved := length (BaseMemory.facts rr);
           processing_time := float_round2 (float_sub end_time start_time);
           metadata := BaseMemory.metadata rr;
           conversation_id := conversation_id;
           error := None |}.
Proof.
  intros Hrr Htext Hstore. split.
  - rewrite store_conversation_async_returns. by rewrite Hstore.
  - pose proof (chat_async_success self user_message conversation_id user_id
                  digital_human_id system_prompt start_time end_time rr _ Hrr Htext)
      as Hasync.
    eexists. split; [exact Hasync |].
    split; [exact (eq_trans (chat_entry_points_agree _ _ _ _ _ _ _ _) Hasync) |].
    repeat split; reflexivity.
Qed.

End Degraded.

(** ** Context assembly *)

Section Assembly.

Import RAGService BaseMemory.

Lemma for_each_append {A} (f : list string → A → Result (list string))
    (g : A → string) (l : list A) (parts : list string) :
  (∀ acc x, f acc x = Ok (acc ++ [g x])) →
  for_each f l parts = Ok (parts ++ (g <$> l)).
Proof.
  intros Hf. revert parts. induction l as [|x l IH]; intros parts; simpl.
  - by rewrite app_nil_r.
  - rewrite Hf. simpl. rewrite IH. by rewrite <- app_assoc.
Qed.

Lemma for_each_append_if {A} (f : list string → A → Result (list string))
    (keep : A → bool) (g : A → string) (l : list A) (parts : list string) :
  (∀ acc x, f acc x = Ok (if keep x then acc ++ [g x] else acc)) →
  for_each f l parts = Ok (parts ++ (g <$> filter (λ x, keep x = true) l)).
Proof.
  intros Hf. revert parts. induction l as [|x l IH]; intros parts; simpl.
  - by rewrite app_nil_r.
  - rewrite Hf. simpl. rewrite IH. destruct (keep x) eqn:Hx.
    + rewrite filter_cons_True by done. by rewrite fmap_cons, <- app_assoc.
    + rewrite filter_cons_False by (rewrite Hx; done). done.
Qed.

Lemma for_each_fmap {A B S} (f : S → B → Result S) (h : A → B) (l : list A) (s : S) :
  for_each f (h <$> l) s = for_each (λ acc x, f acc (h x)) l s.
Proof.
  revert s. induction l as [|x l IH]; intros s; simpl; [done |].
  destruct (f s (h x)); simpl; [apply IH | done].
Qed.

Lemma enumerate_fmap {A B} (h : A → B) (l : list A) (start : nat) :
  enumerate (h <$> l) start = (λ ix, (ix.1, h ix.2)) <$> enumerate l start.
Proof.
  revert start. induction l as [|x l IH]; intros start; simpl; [done |].
  by rewrite IH.
Qed.

Lemma fmap_enumerate {A B} (g : nat * A → B) (l : list A) (start : nat) :
  g <$> enumerate l start = imap (λ i x, g (start + i, x)) l.
Proof.
  revert start. induction l as [|x l IH]; intros start; simpl; [done |].
  rewrite IH, Nat.add_0_r. f_equal. apply imap_ext. intros i y _. simpl.
  do 2 f_equal. lia.
Qed.

(** The three blocks of appends, when the web results read are dicts. *)
Lemma context_parts_layout (rr : RetrievalResult) (dicts : list (gmap string string)) :
  take 3 (web_results rr) = WebDict <$> dicts →
  context_parts rr =
    Ok ((if truthy_list (memories rr)
         then "Previous conversation context:" :: Layout.memory_lines (memories rr)
         else [])
        ++ (if truthy_list (facts rr)
            then (newline +:+ "Known facts about the user:") :: Layout.fact_lines (facts rr)
            else [])
        ++ (if truthy_list (web_results rr)
            then (newline +:+ "Recent information from web search:")
                 :: Layout.web_lines dicts
            else [])).
Proof.
  intros Hweb. unfold context_parts.
  set (mem_block := if truthy_list (memories rr) then _ else mret []).
  assert (Hmem : mem_block =
    Ok (if truthy_list (memories rr)
        then "Previous conversation context:" :: Layout.memory_lines (memories rr)
        else [])).
  { subst mem_block. destruct (truthy_list (memories rr)); [|done].
    rewrite (for_each_append _ (λ im, str_of_nat im.1 +:+ ". " +:+ im.2))
      by (by intros acc [i m]).
    rewrite fmap_enumerate. reflexivity. }
  rewrite Hmem. simpl. clear mem_block Hmem.
  set (parts1 := if truthy_list (memories rr) then _ else []).
  set (fact_block := if truthy_list (facts rr) then _ else mret parts1).
  assert (Hfact : fact_block =
    Ok (parts1 ++
        (if truthy_list (facts rr)
         then (newline +:+ "Known facts about the user:") :: Layout.fact_lines (facts rr)
         else []))).
  { subst fact_block. destruct (truthy_list (facts rr)); [|by rewrite app_nil_r].
    rewrite (for_each_append_if _ (λ kv, negb (startswith "_" kv.1))
               (λ kv, "- " +:+ kv.1 +:+ ": " +:+ kv.2))
      by (intros acc [k v]; simpl; by destruct (startswith "_" k)).
    rewrite <- app_assoc. simpl. do 3 f_equal. unfold Layout.fact_lines. f_equal.
    apply list_filter_iff. intros [k v]. simpl. by destruct (startswith "_" k). }
  rewrite Hfact. simpl. clear fact_block Hfact.
  set (parts2 := parts1 ++ _).
  destruct (truthy_list (web_results rr)); simpl; [|by rewrite app_nil_r].
  rewrite Hweb, enumerate_fmap, for_each_fmap.
  rewrite (for_each_append _
             (λ id, str_of_nat id.1 +:+ ". "
                    +:+ default "No title" (id.2 !! "title") +:+ ": "
                    +:+ default "No description" (id.2 !! "snippet")))
    by (by intros acc [i d]).
  simpl. subst parts2. rewrite <- !app_assoc. simpl. do 4 f_equal.
  rewrite fmap_enumerate. unfold Layout.web_lines.
  rewrite take_ge; [done |].
  apply (f_equal length) in Hweb. rewrite length_fmap in Hweb.
  rewrite <- Hweb, length_take. lia.
Qed.

End Assembly.

Section AssemblyClaims.

Import RAGService BaseMemory.

(** C5. With memories, facts and web results all present, and the web
    results that are read (the first three) being dicts, the context
    text is the block of the specification: the heading and up to three
    numbered memories, then the heading and every fact whose key does
    not start with the marker, then the heading and up to three numbered
    [title: snippet] web results, one per line, nothing of one category
    among the lines of another. *)
Theorem context_lists_memories_facts_web (rr : RetrievalResult)
    (dicts : list (gmap string string)) :
  memories rr ≠ [] → facts rr ≠ [] → web_results rr ≠ [] →
  take 3 (web_results rr) = WebDict <$> dicts →
  context_text rr = Ok (Layout.context_block (memories rr) (facts rr) dicts).
Proof.
  intros Hm Hf Hw Hdicts. unfold context_text.
  rewrite (context_parts_layout rr dicts Hdicts).
  destruct (memories rr) as [|m ms] eqn:Em; [done |].
  destruct (facts rr) as [|kv kvs] eqn:Ef; [done |].
  destruct (web_results rr) as [|w ws] eqn:Ew; [done |].
  reflexivity.
Qed.

(** C6. With no memory, no fact and no web result, the context text is
    the placeholder. *)
Theorem empty_retrieval_gives_placeholder (rr : RetrievalResult) :
  memories rr = [] → facts rr = [] → web_results rr = [] →
  context_text rr = Ok "No additional context available.".
Proof.
  intros Hm Hf Hw. unfold context_text, context_parts.
  rewrite Hm, Hf, Hw. reflexivity.
Qed.

End AssemblyClaims.

(** ** Failed turns on the stream, health, formatting *)

Section Surface.
Context {float : Type} `{FloatOps float}.

Import ConversationService.

Lemma chat_async_failure (self : RAGService.t) (user_message : string)
    (conversation_id : option string) (user_id digital_human_id : option Z)
    (system_prompt : option string) (start_time end_time : float) (e : string) :
  RAGService.chat_async_try self user_message conversation_id user_id
    digital_human_id system_prompt start_time end_time = Raise e →
  RAGService.chat_async self user_message conversation_id user_id
    digital_human_id system_prompt start_time end_time
  = Ok (RAGService.failure_response e conversation_id (float_sub end_time start_time)).
Proof. intros Htry. unfold RAGService.chat_async. by rewrite Htry. Qed.

Lemma chat_async_returns (self : RAGService.t) (user_message : string)
    (conversation_id : option string) (user_id digital_human_id : option Z)
    (system_prompt : option string) (start_time end_time : float) :
  ∃ r, RAGService.chat_async self user_message conversation_id user_id
         digital_human_id system_prompt start_time end_time = Ok r.
Proof.
  unfold RAGService.chat_async, try_except.
  destruct (RAGService.chat_async_try _ _ _ _ _ _ _ _); simpl; eauto.
Qed.

(** C3, as the code has it. When the [try] block of the turn raised,
    [chat_async] hands the failure back as a response, and the adapter
    streams that response like any other: the metadata event with no
    source and zero counts, the five chunks of the apology, the complete
    event with [total_chunks = 5]. No event of the sequence is an error
    event. *)
Theorem stream_of_failed_turn (self : ConversationService.t) (message : string)
    (user_id digital_human_id : option Z) (conversation_id system_prompt : option string)
    (uuid4 : string) (start_time end_time : float) (e : string) :
  RAGService.chat_async_try (rag_service self) message
    (Some (str_or conversation_id uuid4)) user_id digital_human_id system_prompt
    start_time end_time = Raise e →
  stream_response_async self message user_id digital_human_id conversation_id
    system_prompt uuid4 start_time end_time
  = [Metadata (str_or conversation_id uuid4) [] 0 0 (float_sub end_time start_time);
     Chunk "I apologize, but I e" 0;
     Chunk "ncountered an error " 1;
     Chunk "processing your mess" 2;
     Chunk "age. Please try agai" 3;
     Chunk "n." 4;
     Complete (str_or conversation_id uuid4) 5]
  ∧ Forall (λ ev, Events.is_error ev = false)
      (stream_response_async self message user_id digital_human_id conversation_id
         system_prompt uuid4 start_time end_time).
Proof.
  intros Htry.
  assert (Hev : stream_response_async self message user_id digital_human_id
                  conversation_id system_prompt uuid4 start_time end_time
    = [Metadata (str_or conversation_id uuid4) [] 0 0 (float_sub end_time start_time);
       Chunk "I apologize, but I e" 0;
       Chunk "ncountered an error " 1;
       Chunk "processing your mess" 2;
       Chunk "age. Please try agai" 3;
       Chunk "n." 4;
       Complete (str_or conversation_id uuid4) 5]).
  { unfold stream_response_async.
    rewrite (chat_async_failure _ _ _ _ _ _ _ _ e Htry). reflexivity. }
  split; [exact Hev |]. rewrite Hev. repeat constructor.
Qed.

(** C10. [_format_response] sets [success] to [True] and copies the
    [error] of the response it formats, whatever that is. The call
    without streaming returns the formatted response of the turn; when
    the [try] block of the turn raised [e], that result has [success]
    [True] next to the error message built from [e]. *)
Theorem format_response_keeps_success_and_error :
  (∀ (r : RAGService.RAGResponse float) (user_id digital_human_id : option Z)
     (utcnow : string),
     success (_format_response r user_id digital_human_id utcnow) = true
     ∧ error (_format_response r user_id digital_human_id utcnow) = RAGService.error r)
  ∧ (∀ (self : ConversationService.t) (message : string)
       (user_id digital_human_id : option Z) (conversation_id system_prompt : option string)
       (uuid4 : string) (start_time end_time : float) (utcnow : string),
       ∃ r,
         RAGService.chat_async (rag_service self) message
           (Some (str_or conversation_id uuid4)) user_id digital_human_id
           system_prompt start_time end_time = Ok r
         ∧ process_message_async self message user_id digital_human_id
             conversation_id system_prompt false uuid4 start_time end_time utcnow
           = Ok (_format_response r user_id digital_human_id utcnow))
  ∧ (∀ (self : ConversationService.t) (message : string)
       (user_id digital_human_id : option Z) (conversation_id system_prompt : option string)
       (uuid4 : string) (start_time end_time : float) (utcnow e : string),
       RAGService.chat_async_try (rag_service self) message
         (Some (str_or conversation_id uuid4)) user_id digital_human_id
         system_prompt start_time end_time = Raise e →
       ∃ api,
         process_message_async self message user_id digital_human_id
           conversation_id system_prompt false uuid4 start_time end_time utcnow
         = Ok api
         ∧ success api = true
         ∧ error api = Some ("RAG processing failed: " +:+ e)).
Proof.
  split; [done |]. split.
  - intros self msg uid did cid system_prompt uuid4 start_time end_time utcnow.
    unfold process_message_async.
    destruct (chat_async_returns (rag_service self) msg
                (Some (str_or cid uuid4)) uid did
                system_prompt start_time end_time) as [r Hr].
    exists r. split; [exact Hr |]. by rewrite Hr.
  - intros * Htry. unfold process_message_async.
    rewrite (chat_async_failure _ _ _ _ _ _ _ _ e Htry). simpl. eauto.
Qed.

End Surface.

Section HealthClaims.

Import RAGService.

Lemma memory_status_cases (h : MemoryManager.Health) :
  MemoryManager.status h = "healthy" ∨ MemoryManager.status h = "unhealthy".
Proof. destruct h; simpl; auto. Qed.

Lemma memory_health_check_returns (self : MemoryManager.t) :
  ∃ h, MemoryManager.health_check self = Ok h.
Proof.
  unfold MemoryManager.health_check, try_except.
  destruct (BaseMemory.get_stats _); simpl; eauto.
Qed.




End HealthClaims.

(** ** Worked examples *)

Section Worked.

Import Sample BaseMemory.

(** A web hit that is not a dict sends both entry points through their
    [except] branch. *)
Lemma chat_never_raises_witness :
  ∃ r,
    RAGService.chat_sync
      (service (Ok malformed) (Ok [Some "Hi there!"]) (Ok tt) (Ok ∅))
      "Hello" (Some "c1") None None None 100%Z 250%Z = Ok r
    ∧ RAGService.response r = RAGService.apology
    ∧ RAGService.error r
      = Some "RAG processing failed: 'str' object has no attribute 'get'"
    ∧ RAGService.memory_used r = 0.
Proof.
  destruct (chat_never_raises
              (service (Ok malformed) (Ok [Some "Hi there!"]) (Ok tt) (Ok ∅))
              "Hello" (Some "c1") None None None 100%Z 250%Z)
    as [_ [r [Hr Hshape]]].
  exists r. split; [exact Hr |].
  destruct Hshape as (Htext & Herr & Hmem & _).
  split; [exact Htext |]. split; [exact Herr | exact Hmem].
Defined.

(** A 49-character answer goes out in three chunks. *)
Lemma stream_chunks_cover_text_witness :
  let events :=
    ConversationService.stream_response_async
      (conversation (service (Ok tea)
         (Ok [Some "The kettle is on and your tea will be ready soon."])
         (Ok tt) (Ok ∅)))
      "Hello" None None (Some "c1") None "u-1" 100%Z 250%Z in
  Events.chunk_ids events = [0; 1; 2]
  ∧ String.concat "" (Events.chunk_contents events)
    = "The kettle is on and your tea will be ready soon.".
Proof.
  destruct (stream_chunks_cover_text
              (conversation (service (Ok tea)
                 (Ok [Some "The kettle is on and your tea will be ready soon."])
                 (Ok tt) (Ok ∅)))
              "Hello" None None (Some "c1") None "u-1" 100%Z 250%Z _ eq_refl)
    as (_ & _ & Hids & Hcat & _).
  split; [exact Hids | exact Hcat].
Defined.

(** C3, as stated, fails: the turn below fails in the assembly of the
    context, and the adapter answers with the metadata, chunk and
    complete events, not with an error event. *)
Lemma stream_of_failed_turn_counterexample :
  let self := conversation (service (Ok malformed) (Ok [Some "Hi there!"]) (Ok tt) (Ok ∅)) in
  let events :=
    ConversationService.stream_response_async self
      "Hello" None None (Some "c1") None "u-1" 100%Z 250%Z in
  (∃ r,
     RAGService.chat_async (ConversationService.rag_service self)
       "Hello" (Some "c1") None None None 100%Z 250%Z = Ok r
     ∧ RAGService.error r
       = Some "RAG processing failed: 'str' object has no attribute 'get'")
  ∧ ¬ (∃ e c, events = [ConversationService.Error e c])
  ∧ head events = Some (ConversationService.Metadata "c1" [] 0 0 150%Z)
  ∧ last events = Some (ConversationService.Complete "c1" 5).
Proof.
  simpl. split; [eexists; split; reflexivity |].
  split; [|split; reflexivity].
  intros (e & c & Hev). discriminate Hev.
Qed.

Lemma stream_of_failed_turn_witness :
  Forall (λ ev, Events.is_error ev = false)
    (ConversationService.stream_response_async
       (conversation (service (Ok malformed) (Ok [Some "Hi there!"]) (Ok tt) (Ok ∅)))
       "Hello" None None (Some "c1") None "u-1" 100%Z 250%Z).
Proof.
  exact (proj2 (stream_of_failed_turn
                  (conversation (service (Ok malformed) (Ok [Some "Hi there!"])
                                   (Ok tt) (Ok ∅)))
                  "Hello" None None (Some "c1") None "u-1" 100%Z 250%Z
                  "'str' object has no attribute 'get'" eq_refl)).
Defined.

Lemma context_lists_memories_facts_web_witness :
  RAGService.context_text tea
  = Ok "Previous conversation context:
1. likes tea

Known facts about the user:
- name: Ann

Recent information from web search:
1. Tea: A drink
2. No title: No description".
Proof.
  refine (eq_trans
            (context_lists_memories_facts_web tea
               [{["title" := "Tea"; "snippet" := "A drink"]}; ∅] _ _ _ eq_refl)
            eq_refl); discriminate.
Defined.

Lemma empty_retrieval_gives_placeholder_witness :
  RAGService.context_text RetrievalResult_default
  = Ok "No additional context available.".
Proof.
  exact (empty_retrieval_gives_placeholder RetrievalResult_default
           eq_refl eq_refl eq_refl).
Defined.

(** The scenario of the specification: the completion call raises, one
    memory is at hand. *)
Lemma generation_failure_falls_back_witness :
  ∃ r,
    RAGService.chat_async (service (Ok tea) (Raise "timeout") (Ok tt) (Ok ∅))
      "Hello" (Some "c1") None None None 100%Z 250%Z = Ok r
    ∧ RAGService.error r = None
    ∧ RAGService.response r
      = "Based on our previous conversations, I understand you're asking about: Hello. However, I'm having trouble accessing my language model right now. Could you please try again?".
Proof.
  destruct (generation_failure_falls_back
              (service (Ok tea) (Raise "timeout") (Ok tt) (Ok ∅))
              "Hello" (Some "c1") None None None 100%Z 250%Z
              tea _ "timeout" eq_refl eq_refl eq_refl)
    as (r & Hasync & _ & Herr & Htext).
  exists r. split; [exact Hasync |]. split; [exact Herr | exact Htext].
Defined.

(** The scenario of the specification: the write raises after the
    completion call answered. *)
Lemma persistence_failure_keeps_answer_witness :
  ∃ r,
    RAGService.chat_async
      (service (Ok RetrievalResult_default) (Ok [Some "Hi there!"])
         (Raise "disk full") (Ok ∅))
      "Hello" (Some "c1") None None None 100%Z 250%Z = Ok r
    ∧ RAGService.error r = None
    ∧ RAGService.response r = "Hi there!".
Proof.
  destruct (persistence_failure_keeps_answer
              (service (Ok RetrievalResult_default) (Ok [Some "Hi there!"])
                 (Raise "disk full") (Ok ∅))
              "Hello" (Some "c1") None None None 100%Z 250%Z
              RetrievalResult_default "Hi there!" "disk full"
              eq_refl eq_refl eq_refl)
    as (_ & r & Hasync & _ & Herr & Htext & _).
  exists r. split; [exact Hasync |]. split; [exact Herr | exact Htext].
Defined.



(** [success] is [True] next to an error message. *)
Lemma format_response_keeps_success_and_error_witness :
  ∃ api,
    ConversationService.process_message_async
      (conversation (service (Ok malformed) (Ok [Some "Hi there!"]) (Ok tt) (Ok ∅)))
      "Hello" None None (Some "c1") None false "u-1" 100%Z 250%Z
      "2026-01-01T00:00:00" = Ok api
    ∧ ConversationService.success api = true
    ∧ ConversationService.error api
      = Some "RAG processing failed: 'str' object has no attribute 'get'".
Proof.
  exact (proj2 (proj2 format_response_keeps_success_and_error)
           (conversation (service (Ok malformed) (Ok [Some "Hi there!"]) (Ok tt) (Ok ∅)))
           "Hello" None None (Some "c1") None "u-1" 100%Z 250%Z
           "2026-01-01T00:00:00" "'str' object has no attribute 'get'" eq_refl).
Defined.

End Worked.

(** * Further properties *)

(** ** What [strip] removes *)

Section StripFacts.

Lemma append_assoc (a b c : string) : (a +:+ b) +:+ c = a +:+ (b +:+ c).
Proof.
  induction a as [|x a IH]; [done |].
  change (String x ((a +:+ b) +:+ c) = String x (a +:+ (b +:+ c))). by rewrite IH.
Qed.

Lemma all_space_lstrip (s : string) : all_space s = true → lstrip s = "".
Proof.
  induction s as [|c s IH]; simpl; [done |].
  destruct (isspace c); simpl; [exact IH | done].
Qed.

Lemma lstrip_split (s : string) :
  ∃ pre, s = pre +:+ lstrip s ∧ all_space pre = true.
Proof.
  induction s as [|c s (pre & Hs & Hpre)]; simpl.
  - by exists "".
  - destruct (isspace c) eqn:Hc.
    + exists (String c pre). split.
      * change (String c s = String c (pre +:+ lstrip s)). by rewrite <- Hs.
      * simpl. by rewrite Hc.
    + by exists "".
Qed.

Lemma lstrip_head (s : string) (c : ascii) :
  String.get 0 (lstrip s) = Some c → isspace c = false.
Proof.
  induction s as [|x s IH]; simpl; [done |].
  destruct (isspace x) eqn:Hx; [exact IH |].
  intros Hget. change (Some x = Some c) in Hget. congruence.
Qed.

Lemma rstrip_split (s : string) :
  ∃ post, s = rstrip s +:+ post ∧ all_space post = true.
Proof.
  induction s as [|c s (post & Hs & Hpost)]; simpl.
  - by exists "".
  - destruct (rstrip s) as [|y r] eqn:Hr.
    + destruct (isspace c) eqn:Hc.
      * exists (String c post). split.
        -- change (s = post) in Hs. by rewrite Hs.
        -- simpl. by rewrite Hc.
      * exists post. split; [|done].
        change (String c s = String c ("" +:+ post)). by rewrite <- Hs.
    + exists post. split; [|done].
      change (String c s = String c (String y r +:+ post)). by rewrite <- Hs.
Qed.

Lemma rstrip_head (s : string) (c : ascii) :
  String.get 0 (rstrip s) = Some c → String.get 0 s = Some c.
Proof.
  destruct s as [|x s]; simpl; [done |].
  destruct (rstrip s); [destruct (isspace x) |]; done.
Qed.

Lemma rstrip_last (s : string) (c : ascii) :
  String.get (String.length (rstrip s) - 1) (rstrip s) = Some c → isspace c = false.
Proof.
  induction s as [|x s IH]; simpl; [done |].
  destruct (rstrip s) as [|y r] eqn:Hr.
  - destruct (isspace x) eqn:Hx; [done |].
    intros Hget. change (Some x = Some c) in Hget. congruence.
  - intros Hget. apply IH.
    replace (String.length (String y r) - 1) with (String.length r)
      by (change (String.length (String y r)) with (S (String.length r)); lia).
    exact Hget.
Qed.

Lemma strip_split (s : string) :
  ∃ pre post,
    s = pre +:+ strip s +:+ post
    ∧ all_space pre = true ∧ all_space post = true.
Proof.
  destruct (lstrip_split s) as (pre & Hs & Hpre).
  destruct (rstrip_split (lstrip s)) as (post & Hl & Hpost).
  exists pre, post. split; [|done].
  unfold strip. by rewrite <- Hl.
Qed.

Lemma strip_ends (s : string) (c : ascii) :
  String.get 0 (strip s) = Some c
  ∨ String.get (String.length (strip s) - 1) (strip s) = Some c →
  isspace c = false.
Proof.
  unfold strip. intros [Hhead | Hlast].
  - apply (lstrip_head s). by apply rstrip_head.
  - by apply (rstrip_last (lstrip s)).
Qed.

Lemma all_space_strip (s : string) : all_space s = true → strip s = "".
Proof. intros Hs. unfold strip. by rewrite all_space_lstrip. Qed.

End StripFacts.

(** ** Retrieval and persistence in the memory manager *)

Section ManagerExtras.

Import BaseMemory MemoryManager.

Lemma set_if_int_lookup (key k : string) (value : option Z) (d : gmap string pyval) :
  set_if_int key value d !! k
  = if decide (k = key)
    then (if truthy_int value then VInt <$> value else d !! k)
    else d !! k.
Proof.
  unfold set_if_int. destruct value as [z|]; simpl.
  - destruct (negb (z =? 0)%Z); case_decide; subst; by simplify_map_eq.
  - by case_decide.
Qed.

Lemma set_if_str_lookup (key k : string) (value : option string) (d : gmap string pyval) :
  set_if_str key value d !! k
  = if decide (k = key)
    then (if truthy_str value then VStr <$> value else d !! k)
    else d !! k.
Proof.
  unfold set_if_str. destruct value as [[|c s]|]; simpl;
    case_decide; subst; by simplify_map_eq.
Qed.

(** X1. When the memory system answers a retrieval with [res], both
    [retrieve_context_*] return [res] with its memories, facts, web
    results and sources untouched. In the metadata, [user_id] and
    [digital_human_id] are overwritten by the caller's ids when these
    are given and not 0; an id that is [None] or 0 leaves the entry as
    the memory system set it, and no other key changes. *)
Theorem retrieval_tags_metadata (self : MemoryManager.t) (query : string)
    (max_results : nat) (user_id digital_human_id : option Z) (res : RetrievalResult) :
  retrieve_context (memory_system self) query max_results = Ok res →
  ∃ result,
    retrieve_context_sync self query max_results user_id digital_human_id = Ok result
    ∧ retrieve_context_async self query max_results user_id digital_human_id = Ok result
    ∧ memories result = memories res
    ∧ facts result = facts res
    ∧ web_results result = web_results res
    ∧ sources result = sources res
    ∧ metadata result !! "user_id"
      = (if truthy_int user_id then VInt <$> user_id else metadata res !! "user_id")
    ∧ metadata result !! "digital_human_id"
      = (if truthy_int digital_human_id then VInt <$> digital_human_id
         else metadata res !! "digital_human_id")
    ∧ ∀ k, k ≠ "user_id" → k ≠ "digital_human_id" →
           metadata result !! k = metadata res !! k.
Proof.
  intros Hres. exists (tag_metadata res user_id digital_human_id).
  unfold retrieve_context_sync, retrieve_context_async, run_in_executor.
  rewrite Hres. simpl. do 6 (split; [reflexivity |]).
  split; [|split].
  - rewrite !set_if_int_lookup. by repeat case_decide.
  - rewrite !set_if_int_lookup. by repeat case_decide.
  - intros k Hu Hd. rewrite !set_if_int_lookup. by repeat case_decide.
Qed.

(** X2. Both [store_conversation_*] return a boolean on every input,
    [True] exactly when the write to the memory system went through.
    The write is made with a context dict that holds
    [conversation_id] only for a non-empty id, [user_id] and
    [digital_human_id] only for ids that are given and not 0, and no
    other key. *)
Theorem store_conversation_context_and_answer (self : MemoryManager.t)
    (user_message assistant_response : string) (conversation_id : option string)
    (user_id digital_human_id : option Z) :
  let context := store_context conversation_id user_id digital_human_id in
  (∃ b,
     store_conversation_sync self user_message assistant_response conversation_id
       user_id digital_human_id = Ok b
     ∧ store_conversation_async self user_message assistant_response conversation_id
         user_id digital_human_id = Ok b
     ∧ (b = true ↔
        store_conversation (memory_system self) user_message assistant_response context
        = Ok tt))
  ∧ context !! "conversation_id"
    = (if truthy_str conversation_id then VStr <$> conversation_id else None)
  ∧ context !! "user_id" = (if truthy_int user_id then VInt <$> user_id else None)
  ∧ context !! "digital_human_id"
    = (if truthy_int digital_human_id then VInt <$> digital_human_id else None)
  ∧ ∀ k, k ≠ "conversation_id" → k ≠ "user_id" → k ≠ "digital_human_id" →
         context !! k = None.
Proof.
  intros context. split.
  - eexists. split; [apply store_conversation_sync_returns |].
    split; [apply store_conversation_async_returns |].
    fold context. destruct (store_conversation _ _ _ context) as [[]|e]; split; done.
  - subst context. unfold store_context.
    split; [|split; [|split]].
    + rewrite !set_if_int_lookup, set_if_str_lookup. by repeat case_decide.
    + rewrite !set_if_int_lookup, set_if_str_lookup.
      by repeat case_decide.
    + rewrite !set_if_int_lookup, set_if_str_lookup.
      by repeat case_decide.
    + intros k H1 H2 H3. rewrite !set_if_int_lookup, set_if_str_lookup.
      by repeat case_decide.
Qed.

End ManagerExtras.

(** ** More on the turn *)

Section TurnExtras.
Context {float : Type} `{FloatOps float}.

Import RAGService.

Lemma generate_on_completion (self : RAGService.t) (user_message : string)
    (rr : BaseMemory.RetrievalResult) (system_prompt : option string)
    (ctx content : string) (rest : list (option string)) :
  context_text rr = Ok ctx →
  create (openai_client self) (model self)
    [("system", str_or system_prompt default_system_prompt);
     ("user", user_prompt ctx user_message)]
    500 (Some (QArith_base.Qmake 7 10)) = Ok (Some content :: rest) →
  _generate_response_sync self user_message rr system_prompt = Ok (strip content).
Proof.
  intros Hctx Hcreate. unfold _generate_response_sync.
  rewrite Hctx. simpl. by rewrite Hcreate.
Qed.

(** X3. When the retrieval call of the memory system raises, the turn
    goes on with an empty retrieval result: both entry points return a
    response with no error, zero counts, no source and empty metadata,
    whose text is what generation gives on the placeholder context. *)
Theorem retrieval_failure_degrades (self : RAGService.t) (user_message : string)
    (conversation_id : option string) (user_id digital_human_id : option Z)
    (system_prompt : option string) (start_time end_time : float) (e : string) :
  BaseMemory.retrieve_context (MemoryManager.memory_system (memory_manager self))
    user_message 5 = Raise e →
  ∃ r,
    chat_async self user_message conversation_id user_id digital_human_id
      system_prompt start_time end_time = Ok r
    ∧ chat_sync self user_message conversation_id user_id digital_human_id
        system_prompt start_time end_time = Ok r
    ∧ error r = None
    ∧ memory_used r = 0 ∧ web_results r = 0 ∧ facts_retrieved r = 0
    ∧ sources r = [] ∧ metadata r = ∅
    ∧ context_text BaseMemory.RetrievalResult_default
      = Ok "No additional context available."
    ∧ _generate_response_sync self user_message BaseMemory.RetrievalResult_default
        system_prompt = Ok (response r).
Proof.
  intros Hraise.
  assert (Hrr : MemoryManager.retrieve_context_async (memory_manager self)
                  user_message 5 user_id digital_human_id
                = Ok BaseMemory.RetrievalResult_default).
  { unfold MemoryManager.retrieve_context_async, MemoryManager.run_in_executor.
    by rewrite Hraise. }
  pose proof (generate_response_sync_outcome self user_message
                BaseMemory.RetrievalResult_default system_prompt) as Hgen.
  change (context_text BaseMemory.RetrievalResult_default)
    with (Ok (A := string) "No additional context available.") in Hgen.
  destruct Hgen as [text Htext].
  pose proof (chat_async_success self user_message conversation_id user_id
                digital_human_id system_prompt start_time end_time _ text Hrr Htext)
    as Hasync.
  eexists. split; [exact Hasync |].
  split; [exact (eq_trans (chat_entry_points_agree _ _ _ _ _ _ _ _) Hasync) |].
  repeat split; try reflexivity. exact Htext.
Qed.

(** X4. When the completion call answers, the text of the turn is the
    content of its first choice without the whitespace at its two ends:
    the content is the text between two runs of whitespace, and the
    text neither starts nor ends with a whitespace character. The other
    choices are not read. *)
Theorem completion_text_is_stripped (self : RAGService.t) (user_message : string)
    (rr : BaseMemory.RetrievalResult) (system_prompt : option string)
    (ctx content : string) (rest : list (option string)) :
  context_text rr = Ok ctx →
  create (openai_client self) (model self)
    [("system", str_or system_prompt default_system_prompt);
     ("user", user_prompt ctx user_message)]
    500 (Some (QArith_base.Qmake 7 10)) = Ok (Some content :: rest) →
  ∃ text pre post,
    _generate_response_sync self user_message rr system_prompt = Ok text
    ∧ _generate_response_async self user_message rr system_prompt = Ok text
    ∧ content = pre +:+ text +:+ post
    ∧ all_space pre = true ∧ all_space post = true
    ∧ ∀ c, String.get 0 text = Some c
           ∨ String.get (String.length text - 1) text = Some c →
           isspace c = false.
Proof.
  intros Hctx Hcreate.
  pose proof (generate_on_completion self user_message rr system_prompt ctx content
                rest Hctx Hcreate) as Hgen.
  destruct (strip_split content) as (pre & post & Hsplit & Hpre & Hpost).
  exists (strip content), pre, post.
  split; [exact Hgen |]. split; [exact Hgen |].
  split; [exact Hsplit |]. split; [exact Hpre |]. split; [exact Hpost |].
  apply strip_ends.
Qed.

(** X5. A completion whose first content is empty or all whitespace is
    not treated as a failure: the turn returns the empty string as its
    text, with no error, not the fallback wording. *)
Theorem blank_completion_gives_empty_text (self : RAGService.t) (user_message : string)
    (conversation_id : option string) (user_id digital_human_id : option Z)
    (system_prompt : option string) (start_time end_time : float)
    (rr : BaseMemory.RetrievalResult) (ctx content : string)
    (rest : list (option string)) :
  MemoryManager.retrieve_context_async (memory_manager self) user_message 5
    user_id digital_human_id = Ok rr →
  context_text rr = Ok ctx →
  create (openai_client self) (model self)
    [("system", str_or system_prompt default_system_prompt);
     ("user", user_prompt ctx user_message)]
    500 (Some (QArith_base.Qmake 7 10)) = Ok (Some content :: rest) →
  all_space content = true →
  ∃ r,
    chat_async self user_message conversation_id user_id digital_human_id
      system_prompt start_time end_time = Ok r
    ∧ chat_sync self user_message conversation_id user_id digital_human_id
        system_prompt start_time end_time = Ok r
    ∧ response r = "" ∧ error r = None.
Proof.
  intros Hrr Hctx Hcreate Hblank.
  pose proof (generate_on_completion self user_message rr system_prompt ctx content
                rest Hctx Hcreate) as Hgen.
  rewrite (all_space_strip content Hblank) in Hgen.
  pose proof (chat_async_success self user_message conversation_id user_id
                digital_human_id system_prompt start_time end_time rr "" Hrr Hgen)
    as Hasync.
  eexists. split; [exact Hasync |].
  split; [exact (eq_trans (chat_entry_points_agree _ _ _ _ _ _ _ _) Hasync) |].
  split; reflexivity.
Qed.

End TurnExtras.

(** ** More on the stream and on the formatted answer *)

Section StreamExtras.
Context {float : Type} `{FloatOps float}.

Import ConversationService.

Lemma substring_length (a m : nat) (s : string) :
  String.length (String.substring a m s) = Nat.min m (String.length s - a).
Proof.
  revert a m. induction s as [|c s IH]; intros a m.
  - rewrite substring_empty. change (String.length "") with 0. lia.
  - change (String.length (String c s)) with (S (String.length s)).
    destruct a as [|a].
    + destruct m as [|m]; [reflexivity |].
      change (String.substring 0 (S m) (String c s))
        with (String c (String.substring 0 m s)).
      change (String.length (String c (String.substring 0 m s)))
        with (S (String.length (String.substring 0 m s))).
      rewrite IH. lia.
    + change (String.substring (S a) m (String c s)) with (String.substring a m s).
      rewrite IH. lia.
Qed.

(** The events of a turn that returned [r]. *)
Lemma stream_shape (self : ConversationService.t) (msg : string)
    (uid did : option Z) (cid system_prompt : option string)
    (uuid4 : string) (start_time end_time : float) (r : RAGService.RAGResponse float) :
  RAGService.chat_async (rag_service self) msg (Some (str_or cid uuid4)) uid did
    system_prompt start_time end_time = Ok r →
  stream_response_async self msg uid did cid system_prompt uuid4 start_time end_time
  = Metadata (str_or cid uuid4) (RAGService.sources r) (RAGService.memory_used r)
      (RAGService.web_results r) (RAGService.processing_time r)
    :: ((λ k, Chunk (String.substring (k * 20) 20 (RAGService.response r)) k)
          <$> seq 0 ((String.length (RAGService.response r) + 19) / 20))
    ++ [Complete (str_or cid uuid4)
          ((String.length (RAGService.response r) + 19) / 20)].
Proof.
  intros Hturn. unfold stream_response_async. rewrite Hturn.
  rewrite chunk_events_closed by lia.
  replace (String.length (RAGService.response r) + 20 - 1)
    with (String.length (RAGService.response r) + 19) by lia.
  reflexivity.
Qed.

Lemma chat_async_keeps_id (self : RAGService.t) (msg : string)
    (cid : option string) (uid did : option Z) (system_prompt : option string)
    (start_time end_time : float) (r : RAGService.RAGResponse float) :
  RAGService.chat_async self msg cid uid did system_prompt start_time end_time = Ok r →
  RAGService.conversation_id r = cid.
Proof.
  unfold RAGService.chat_async, try_except, RAGService.chat_async_try.
  destruct (MemoryManager.retrieve_context_async _ _ _ _ _); simpl;
    [|by intros [= <-]].
  destruct (RAGService._generate_response_async _ _ _ _); simpl;
    [|by intros [= <-]].
  destruct (MemoryManager.store_conversation_async _ _ _ _ _ _); simpl;
    by intros [= <-].
Qed.

(** X6. Every chunk of the stream holds between 1 and 20 characters:
    chunk [i] holds [min(20, L - 20 i)] of them, which is 20 for every
    chunk but the last. *)
Theorem chunk_sizes (self : ConversationService.t) (msg : string)
    (uid did : option Z) (cid system_prompt : option string)
    (uuid4 : string) (start_time end_time : float) (r : RAGService.RAGResponse float)
    (i : nat) (content : string) :
  RAGService.chat_async (rag_service self) msg (Some (str_or cid uuid4)) uid did
    system_prompt start_time end_time = Ok r →
  Events.chunk_contents
    (stream_response_async self msg uid did cid system_prompt uuid4 start_time end_time)
    !! i = Some content →
  let L := String.length (RAGService.response r) in
  String.length content = Nat.min 20 (L - 20 * i)
  ∧ 1 ≤ String.length content ≤ 20
  ∧ (S i < (L + 19) / 20 → String.length content = 20).
Proof.
  intros Hturn Hi L.
  rewrite (stream_shape _ _ _ _ _ _ _ _ _ r Hturn) in Hi.
  rewrite chunk_contents_framed, chunk_contents_numbered in Hi by done.
  rewrite list_lookup_fmap in Hi.
  destruct (seq 0 ((String.length (RAGService.response r) + 19) / 20) !! i)
    as [k|] eqn:Hk; [|done].
  apply lookup_seq in Hk as [-> Hlt]. simpl in Hi. injection Hi as <-.
  rewrite substring_length. fold L in Hlt |- *.
  pose proof (Nat.div_mod_eq (L + 19) 20) as Hdm.
  pose proof (Nat.mod_upper_bound (L + 19) 20) as Hmod.
  repeat split; try lia.
Qed.

(** X7. On every request the stream is one metadata event, the chunk
    events, one complete event, [ceil(L / 20) + 2] events in all, and
    none of them is an error event: the adapter never reports a failure
    on the wire. *)
Theorem stream_never_reports_error (self : ConversationService.t) (msg : string)
    (uid did : option Z) (cid system_prompt : option string)
    (uuid4 : string) (start_time end_time : float) :
  let events :=
    stream_response_async self msg uid did cid system_prompt uuid4 start_time end_time in
  ∃ r,
    RAGService.chat_async (rag_service self) msg (Some (str_or cid uuid4)) uid did
      system_prompt start_time end_time = Ok r
    ∧ head events
      = Some (Metadata (str_or cid uuid4) (RAGService.sources r)
                (RAGService.memory_used r) (RAGService.web_results r)
                (RAGService.processing_time r))
    ∧ last events
      = Some (Complete (str_or cid uuid4)
                ((String.length (RAGService.response r) + 19) / 20))
    ∧ length events = (String.length (RAGService.response r) + 19) / 20 + 2
    ∧ Forall (λ ev, Events.is_error ev = false) events.
Proof.
  intros events.
  destruct (chat_async_returns (rag_service self) msg (Some (str_or cid uuid4))
              uid did system_prompt start_time end_time) as [r Hr].
  exists r. split; [exact Hr |]. subst events.
  rewrite (stream_shape _ _ _ _ _ _ _ _ _ r Hr).
  split; [reflexivity |]. split; [|split].
  - rewrite app_comm_cons. apply last_snoc.
  - simpl. rewrite length_app, length_fmap, length_seq. simpl. lia.
  - constructor; [done |]. apply Forall_app. split; [|by repeat constructor].
    apply Forall_fmap, Forall_forall. done.
Qed.

(** X8. [process_message_async] never answers with the dict of its own
    [except] branch. With or without [stream] it returns the formatted
    response of the turn: [success] is [True], [message] is the text of
    the turn, [error] is the error of the turn, and the conversation id
    is the caller's, or the fresh token when the caller gave none or an
    empty one. [stream] only adds the two flags, both [True]. *)
Theorem process_message_always_formatted (self : ConversationService.t) (msg : string)
    (uid did : option Z) (cid system_prompt : option string) (stream : bool)
    (uuid4 : string) (start_time end_time : float) (utcnow : string) :
  ∃ r data,
    RAGService.chat_async (rag_service self) msg (Some (str_or cid uuid4)) uid did
      system_prompt start_time end_time = Ok r
    ∧ process_message_async self msg uid did cid system_prompt stream uuid4
        start_time end_time utcnow
      = Ok (Formatted true data (RAGService.error r)
              (if stream then Some true else None)
              (if stream then Some true else None))
    ∧ message data = RAGService.response r
    ∧ conversation_id data = Some (str_or cid uuid4)
    ∧ timestamp data = utcnow.
Proof.
  destruct (chat_async_returns (rag_service self) msg (Some (str_or cid uuid4))
              uid did system_prompt start_time end_time) as [r Hr].
  exists r. eexists. split; [exact Hr |].
  unfold process_message_async, _process_streaming_message.
  rewrite Hr. simpl. destruct stream; simpl.
  - split; [reflexivity |]. split; [reflexivity |].
    split; [|reflexivity]. simpl. by apply chat_async_keeps_id in Hr.
  - split; [reflexivity |]. split; [reflexivity |].
    split; [|reflexivity]. simpl. by apply chat_async_keeps_id in Hr.
Qed.

End StreamExtras.

(** ** The consumer of the stream *)

Section ConsumerExtras.
Context {float : Type} `{FloatOps float}.

Import ConversationService AppConversationService.

Lemma process_stream_chunks (h : nat → string) (l : list nat)
    (last : WireEvent float) (acc : string) :
  Events.is_chunk last = false → Events.is_error last = false →
  (∀ a b c d e, last ≠ Metadata a b c d e) →
  process_stream (((λ k, Chunk (h k) k) <$> l) ++ [last]) acc
  = (Token <$> (h <$> l), acc +:+ String.concat "" (h <$> l)).
Proof.
  intros Hchunk Herr Hmeta. revert acc. induction l as [|k l IH]; intros acc.
  - destruct last; try done; [by edestruct Hmeta |].
    simpl. by rewrite append_empty_r.
  - rewrite !fmap_cons, concat_empty_cons, <- append_assoc.
    change (process_stream ((Chunk (h k) k :: ((λ k, Chunk (h k) k) <$> l)) ++ [last]) acc)
      with (let '(events, full_response) :=
              process_stream (((λ k, Chunk (h k) k) <$> l) ++ [last]) (acc +:+ h k) in
            (Token (h k) :: events, full_response)).
    by rewrite IH.
Qed.

(** X9. Fed with the stream of a turn, [process_stream] yields the
    metadata of the turn once and then one token per chunk, in order,
    and ends with [full_response] equal to the text of the turn: what
    was cut into chunks is put together again unchanged. No error event
    is yielded. *)
Theorem process_stream_rebuilds_text (self : ConversationService.t) (msg : string)
    (uid did : option Z) (cid system_prompt : option string)
    (uuid4 : string) (start_time end_time : float) :
  let events :=
    stream_response_async self msg uid did cid system_prompt uuid4 start_time end_time in
  ∃ r,
    RAGService.chat_async (rag_service self) msg (Some (str_or cid uuid4)) uid did
      system_prompt start_time end_time = Ok r
    ∧ process_stream events ""
      = (RagMetadata
           (Metadata (str_or cid uuid4) (RAGService.sources r)
              (RAGService.memory_used r) (RAGService.web_results r)
              (RAGService.processing_time r))
         :: (Token <$> Events.chunk_contents events),
         RAGService.response r).
Proof.
  intros events.
  destruct (chat_async_returns (rag_service self) msg (Some (str_or cid uuid4))
              uid did system_prompt start_time end_time) as [r Hr].
  exists r. split; [exact Hr |]. subst events.
  rewrite (stream_shape _ _ _ _ _ _ _ _ _ r Hr).
  rewrite chunk_contents_framed, chunk_contents_numbered by done.
  set (n := (String.length (RAGService.response r) + 19) / 20).
  change (process_stream (Metadata ?a ?b ?c ?d ?e :: ?rest) "")
    with (let '(events, full_response) := process_stream rest "" in
          (RagMetadata (Metadata a b c d e) :: events, full_response)).
  rewrite process_stream_chunks by done.
  rewrite slices_reassemble; [done |].
  subst n. pose proof (Nat.div_mod_eq (String.length (RAGService.response r) + 19) 20).
  pose proof (Nat.mod_upper_bound (String.length (RAGService.response r) + 19) 20).
  lia.
Qed.

End ConsumerExtras.

(** ** More on the assembly of the context *)

Section AssemblyExtras.

Import RAGService BaseMemory.

Lemma truthy_take {A} (l : list A) : truthy_list (take 3 l) = truthy_list l.
Proof. by destruct l. Qed.

Lemma for_each_app {A S} (f : S → A → Result S) (l1 l2 : list A) (s : S) :
  for_each f (l1 ++ l2) s = for_each f l1 s ≫= for_each f l2.
Proof.
  revert s. induction l1 as [|x l1 IH]; intros s; simpl; [done |].
  destruct (f s x); simpl; [apply IH | done].
Qed.

Lemma enumerate_app {A} (l1 l2 : list A) (start : nat) :
  enumerate (l1 ++ l2) start = enumerate l1 start ++ enumerate l2 (start + length l1).
Proof.
  revert start. induction l1 as [|x l1 IH]; intros start; simpl.
  - by rewrite Nat.add_0_r.
  - rewrite IH. do 3 f_equal. lia.
Qed.

(** A list of web results is made of dicts only, or has a first entry
    that is not a dict. *)
Lemma web_results_split (l : list WebResult) :
  (∃ dicts, l = WebDict <$> dicts)
  ∨ (∃ dicts type_name rest, l = (WebDict <$> dicts) ++ WebOther type_name :: rest).
Proof.
  induction l as [|w l IH]; [left; by exists [] |].
  destruct w as [d|ty]; [|right; by exists [], ty, l].
  destruct IH as [(dicts & ->) | (dicts & ty & rest & ->)].
  - left. by exists (d :: dicts).
  - right. by exists (d :: dicts), ty, rest.
Qed.

(** The blocks of memories and of facts are always built; the outcome
    of [context_parts] is that of the walk over the web results. *)
Lemma context_parts_web (rr : RetrievalResult) :
  ∃ parts,
    context_parts rr
    = if truthy_list (web_results rr) then
        for_each
          (λ parts '(i, result),
             title ← web_get result "title" "No title";
             snippet ← web_get result "snippet" "No description";
             mret (parts ++ [str_of_nat i +:+ ". " +:+ title +:+ ": " +:+ snippet]))
          (enumerate (take 3 (web_results rr)) 1)
          (parts ++ [newline +:+ "Recent information from web search:"])
      else Ok parts.
Proof.
  unfold context_parts.
  set (mem_block := if truthy_list (memories rr) then _ else mret []).
  assert (Hmem : ∃ parts1, mem_block = Ok parts1).
  { subst mem_block. destruct (truthy_list (memories rr)); [|by eexists].
    rewrite (for_each_append _ (λ im, str_of_nat im.1 +:+ ". " +:+ im.2))
      by (by intros acc [i m]).
    by eexists. }
  destruct Hmem as [parts1 ->]. simpl.
  set (fact_block := if truthy_list (facts rr) then _ else mret parts1).
  assert (Hfact : ∃ parts2, fact_block = Ok parts2).
  { subst fact_block. destruct (truthy_list (facts rr)); [|by eexists].
    rewrite (for_each_append_if _ (λ kv, negb (startswith "_" kv.1))
               (λ kv, "- " +:+ kv.1 +:+ ": " +:+ kv.2))
      by (intros acc [k v]; simpl; by destruct (startswith "_" k)).
    by eexists. }
  destruct Hfact as [parts2 ->]. simpl.
  exists parts2. destruct (truthy_list (web_results rr)); [|done].
  by destruct (for_each _ _ _).
Qed.

Lemma context_parts_raises (rr : RetrievalResult) (dicts : list (gmap string string))
    (type_name : string) (rest : list WebResult) :
  take 3 (web_results rr) = (WebDict <$> dicts) ++ WebOther type_name :: rest →
  context_parts rr = Raise ("'" +:+ type_name +:+ "' object has no attribute 'get'").
Proof.
  intros Hweb. destruct (context_parts_web rr) as [parts ->].
  rewrite <- truthy_take, Hweb.
  replace (truthy_list ((WebDict <$> dicts) ++ WebOther type_name :: rest)) with true
    by (by destruct dicts).
  rewrite enumerate_app, for_each_app, enumerate_fmap, for_each_fmap.
  rewrite (for_each_append _
             (λ id, str_of_nat id.1 +:+ ". "
                    +:+ default "No title" (id.2 !! "title") +:+ ": "
                    +:+ default "No description" (id.2 !! "snippet")))
    by (by intros acc [i d]).
  reflexivity.
Qed.

(** X10. The context is assembled from the first three memories, the
    facts and the first three web results only: two retrieval results
    that agree on these give the same context text, or the same
    exception, whatever their further memories and web results, their
    sources and their metadata. *)
Theorem context_reads_first_three (rr1 rr2 : RetrievalResult) :
  take 3 (memories rr1) = take 3 (memories rr2) →
  facts rr1 = facts rr2 →
  take 3 (web_results rr1) = take 3 (web_results rr2) →
  context_text rr1 = context_text rr2.
Proof.
  intros Hm Hf Hw. unfold context_text, context_parts.
  rewrite <- (truthy_take (memories rr1)), <- (truthy_take (memories rr2)).
  rewrite <- (truthy_take (web_results rr1)), <- (truthy_take (web_results rr2)).
  by rewrite Hm, Hf, Hw.
Qed.

(** X11. Context assembly raises exactly when one of the first three
    web results is not a dict, and the exception is the attribute error
    of the first such entry. Entries from the fourth on are not read. *)
Theorem context_raises_on_first_non_dict (rr : RetrievalResult) (e : string) :
  context_text rr = Raise e
  ↔ ∃ dicts type_name rest,
      take 3 (web_results rr) = (WebDict <$> dicts) ++ WebOther type_name :: rest
      ∧ e = "'" +:+ type_name +:+ "' object has no attribute 'get'".
Proof.
  split.
  - intros Hraise.
    destruct (web_results_split (take 3 (web_results rr)))
      as [(dicts & Hd) | (dicts & ty & rest & Hd)].
    + unfold context_text in Hraise.
      rewrite (context_parts_layout rr dicts Hd) in Hraise. done.
    + exists dicts, ty, rest. split; [exact Hd |].
      unfold context_text in Hraise.
      rewrite (context_parts_raises rr dicts ty rest Hd) in Hraise.
      by injection Hraise.
  - intros (dicts & ty & rest & Hd & ->). unfold context_text.
    by rewrite (context_parts_raises rr dicts ty rest Hd).
Qed.

Lemma join_head (sep : string) (c : ascii) (h : string) (rest : list string) :
  String.get 0 (join sep (String c h :: rest)) = Some c.
Proof. by destruct rest. Qed.

Lemma joined_not_placeholder (c : ascii) (h : string) (rest : list string) :
  c ≠ "N"%char →
  join newline (String c h :: rest) ≠ "No additional context available.".
Proof.
  intros Hc Heq. apply (f_equal (String.get 0)) in Heq.
  rewrite join_head in Heq. by injection Heq.
Qed.

(** X12. The context text is the placeholder exactly when the
    retrieval result has no memory, no fact and no web result. Facts
    that are all internal still put their heading in the context. *)
Theorem placeholder_only_when_empty (rr : RetrievalResult) :
  context_text rr = Ok "No additional context available."
  ↔ memories rr = [] ∧ facts rr = [] ∧ web_results rr = [].
Proof.
  split.
  - intros Htext.
    destruct (web_results_split (take 3 (web_results rr)))
      as [(dicts & Hd) | (dicts & ty & rest & Hd)].
    + unfold context_text in Htext.
      rewrite (context_parts_layout rr dicts Hd) in Htext.
      destruct (memories rr) as [|m ms]; destruct (facts rr) as [|kv kvs];
        destruct (web_results rr) as [|w ws]; try done;
        cbn [truthy_list app] in Htext; injection Htext as Htext;
        exfalso; revert Htext; by apply joined_not_placeholder.
    + unfold context_text in Htext.
      by rewrite (context_parts_raises rr dicts ty rest Hd) in Htext.
  - intros (Hm & Hf & Hw). unfold context_text, context_parts.
    by rewrite Hm, Hf, Hw.
Qed.

End AssemblyExtras.

(** ** Statistics, health and clearing, level by level *)

Section ServiceExtras.

Import BaseMemory.

Lemma clear_memory_async_returns (self : MemoryManager.t) (user_id : option Z) :
  MemoryManager.clear_memory_async self user_id
  = Ok (match clear (MemoryManager.memory_system self) with
        | Ok _ => true
        | Raise _ => false
        end).
Proof.
  unfold MemoryManager.clear_memory_async, MemoryManager.run_in_executor, try_except.
  by destruct (clear _).
Qed.

Lemma rag_health_check_returns (self : RAGService.t) :
  ∃ h, RAGService.health_check self = Ok h.
Proof.
  unfold RAGService.health_check, try_except.
  destruct (_ ≫= _); simpl; eauto.
Qed.

Lemma memory_stats_helper (self : MemoryManager.t) :
  ∃ d, MemoryManager.get_memory_stats self = Ok d.
Proof.
  unfold MemoryManager.get_memory_stats, try_except.
  destruct (get_stats _); simpl; eauto.
Qed.

(** X13. [get_memory_stats] returns a dict on every input, and the dict
    always names the memory type under [memory_manager_type]. When the
    memory system gives its stats, every other key is as the memory
    system gave it; when it raises, the dict holds the error text under
    [error] and nothing else. *)
Theorem memory_stats_always_typed (self : MemoryManager.t) :
  ∃ d,
    MemoryManager.get_memory_stats self = Ok d
    ∧ d !! "memory_manager_type" = Some (VStr (MemoryManager.memory_type self))
    ∧ match get_stats (MemoryManager.memory_system self) with
      | Ok stats => ∀ k, k ≠ "memory_manager_type" → d !! k = stats !! k
      | Raise e =>
          d !! "error" = Some (VStr e)
          ∧ ∀ k, k ≠ "error" → k ≠ "memory_manager_type" → d !! k = None
      end.
Proof.
  unfold MemoryManager.get_memory_stats, try_except.
  destruct (get_stats _) as [stats|e]; simpl; eexists; (split; [reflexivity |]).
  - split; [by simplify_map_eq |]. intros k Hk. by simplify_map_eq.
  - split; [by simplify_map_eq |]. split; [by simplify_map_eq |].
    intros k Hk1 Hk2. by simplify_map_eq.
Qed.

(** X14. The three levels of statistics never raise, and only a failure
    of the search service's own stats call turns the RAG statistics into
    the error dict: a failing memory system is reported inside the
    memory stats. The conversation service and the application wrapper
    always hand the RAG statistics on in their regular dict, never in
    the dict of their [except] branch. *)
Theorem stats_levels (rag_service : ConversationService.t)
    (get_search_stats : Result (gmap string pyval)) :
  ∃ rag_stats,
    RAGService.get_stats (ConversationService.rag_service rag_service) get_search_stats
    = Ok rag_stats
    ∧ ConversationService.get_stats rag_service get_search_stats
      = Ok (ConversationService.ServiceStatsReport "Enhanced Conversation Service"
              true ConversationService.features rag_stats)
    ∧ AppConversationService.get_rag_stats rag_service get_search_stats
      = Ok (AppConversationService.RagStatsOf
              (ConversationService.ServiceStatsReport "Enhanced Conversation Service"
                 true ConversationService.features rag_stats))
    ∧ match get_search_stats with
      | Raise e => rag_stats = RAGService.StatsError e "RAG Service"
      | Ok search_stats =>
          ∃ memory_stats,
            MemoryManager.get_memory_stats
              (RAGService.memory_manager (ConversationService.rag_service rag_service))
            = Ok memory_stats
            ∧ rag_stats
              = RAGService.StatsReport "RAG Service"
                  (RAGService.model (ConversationService.rag_service rag_service))
                  memory_stats search_stats RAGService.capabilities
      end.
Proof.
  unfold AppConversationService.get_rag_stats, ConversationService.get_stats,
    RAGService.get_stats.
  destruct (memory_stats_helper
              (RAGService.memory_manager (ConversationService.rag_service rag_service)))
    as [ms Hms].
  rewrite Hms. simpl.
  destruct get_search_stats as [ss|e]; simpl; eexists; repeat split; eauto.
Qed.

(** X15. The health check of the RAG service returns a dict on every
    input. It is the dict of the [except] branch exactly when the search
    service's health check raises, or when its report has no [status]
    key and that key is read, which is when the memory manager is
    healthy or the OpenAI probe fails. A regular report carries the two
    sub-reports, the outcome of the probe and the model, and says that
    capabilities are available unless its status is [unhealthy]. *)
Theorem rag_health_failure_cases (self : RAGService.t) :
  ∃ memory_health,
    MemoryManager.health_check (RAGService.memory_manager self) = Ok memory_health
    ∧ (∃ h, RAGService.health_check self = Ok h)
    ∧ (∀ e,
         RAGService.health_check self = Ok (RAGService.Failure e)
         ↔ search_health_check (RAGService.search_service self) = Raise e
           ∨ ∃ search_health,
               search_health_check (RAGService.search_service self) = Ok search_health
               ∧ search_health !! "status" = None
               ∧ e = "'status'"
               ∧ (MemoryManager.status memory_health = "healthy"
                  ∨ RAGService.openai_probe self = false))
    ∧ (∀ s m sh o mo c,
         RAGService.health_check self = Ok (RAGService.Report s m sh o mo c) →
         m = memory_health
         ∧ search_health_check (RAGService.search_service self) = Ok sh
         ∧ o = RAGService.openai_probe self
         ∧ mo = RAGService.model self
         ∧ c = negb (String.eqb s "unhealthy")).
Proof.
  destruct (memory_health_check_returns (RAGService.memory_manager self)) as [mh Hmh].
  exists mh. split; [exact Hmh |]. split; [apply rag_health_check_returns |].
  unfold RAGService.health_check, try_except. rewrite Hmh. simpl.
  destruct (search_health_check _) as [sh|e0]; simpl.
  - unfold RAGService.getitem.
    destruct (memory_status_cases mh) as [-> | ->]; simpl;
      destruct (sh !! "status") as [st|] eqn:Hst; simpl;
      destruct (RAGService.openai_probe self); simpl;
      repeat case_bool_decide; simpl;
      (split;
       [intros e; split;
        [intros [= <-] || (intros Heq; discriminate Heq);
         right; exists sh; repeat split; auto
        |intros [Heq | (sh' & [= <-] & Hnone & -> & Hor)];
         [discriminate Heq | try congruence; try (by destruct Hor)]]
       |intros s m sh' o mo c Heq; try discriminate Heq;
        injection Heq as <- <- <- <- <- <-; repeat split; done]).
  - split.
    + intros e. split; [intros [= <-]; by left |].
      intros [[= <-] | (sh' & Heq & _)]; [done | discriminate Heq].
    + intros s m sh' o mo c Heq. discriminate Heq.
Qed.

(** X16. The health check of the conversation service and the wrapper
    of the application never raise and report the status of the RAG
    health check. When the RAG health check failed with its own error,
    they still say [unhealthy], but the error they show is the missing
    key [capabilities_available], not the error of the RAG service. *)
Theorem health_levels (rag_service : ConversationService.t) :
  ∃ rag_health h,
    RAGService.health_check (ConversationService.rag_service rag_service) = Ok rag_health
    ∧ ConversationService.health_check rag_service = Ok h
    ∧ AppConversationService.rag_health_check rag_service
      = Ok (AppConversationService.RagHealthOf h)
    ∧ ConversationService.service_status h = RAGService.status rag_health
    ∧ h = match rag_health with
          | RAGService.Report s _ _ _ _ available =>
              ConversationService.ServiceHealthReport s
                "Enhanced Conversation Service" rag_health available
          | RAGService.Failure _ =>
              ConversationService.ServiceHealthError "unhealthy"
                "Enhanced Conversation Service" "'capabilities_available'"
          end.
Proof.
  destruct (rag_health_check_returns (ConversationService.rag_service rag_service))
    as [rh Hrh].
  exists rh. unfold AppConversationService.rag_health_check,
    ConversationService.health_check.
  rewrite Hrh. simpl. destruct rh; simpl; eexists; repeat split; reflexivity.
Qed.

(** X17. Clearing memory never raises at any level. The memory manager,
    both RAG entry points and the conversation service agree on one
    boolean, [True] exactly when the [clear] of the memory system went
    through; the conversation service reports it with the matching
    message and the caller's user id, and never with the message of its
    [except] branch. *)
Theorem clear_memory_levels (rag_service : ConversationService.t) (user_id : option Z) :
  let rag := ConversationService.rag_service rag_service in
  let memory := MemoryManager.memory_system (RAGService.memory_manager rag) in
  ∃ b,
    MemoryManager.clear_memory_async (RAGService.memory_manager rag) user_id = Ok b
    ∧ RAGService.clear_memory_async rag user_id = Ok b
    ∧ RAGService.clear_memory_sync rag user_id = Ok b
    ∧ ConversationService.clear_memory_async rag_service user_id
      = Ok (ConversationService.ClearReport b
              (if b then "Memory cleared successfully" else "Failed to clear memory")
              user_id)
    ∧ (b = true ↔ clear memory = Ok tt).
Proof.
  intros rag memory. subst rag memory.
  unfold ConversationService.clear_memory_async, RAGService.clear_memory_async,
    RAGService.clear_memory_sync.
  rewrite !clear_memory_async_returns.
  unfold try_except. destruct (clear _) as [[]|e]; simpl;
    eexists; repeat split; try reflexivity; done.
Qed.

End ServiceExtras.

(** ** Worked examples for the further properties *)

Section WorkedExtras.

Import Sample BaseMemory.

(** User 7 is written into the metadata; the memories pass through. *)
Lemma retrieval_tags_metadata_witness :
  ∃ result,
    MemoryManager.retrieve_context_sync (memory (Ok tea) (Ok tt)) "Hello" 5
      (Some 7%Z) (Some 0%Z) = Ok result
    ∧ memories result = ["likes tea"]
    ∧ metadata result !! "user_id" = Some (VInt 7).
Proof.
  destruct (retrieval_tags_metadata (memory (Ok tea) (Ok tt)) "Hello" 5
              (Some 7%Z) (Some 0%Z) tea eq_refl)
    as (result & Hsync & _ & Hmem & _ & _ & _ & Huser & _).
  exists result. split; [exact Hsync |]. split; [exact Hmem | exact Huser].
Defined.

(** The memory system is down; the completion still answers. *)
Lemma retrieval_failure_degrades_witness :
  ∃ r,
    RAGService.chat_async
      (service (Raise "store offline") (Ok [Some "Hi there!"]) (Ok tt) (Ok ∅))
      "Hello" (Some "c1") None None None 100%Z 250%Z = Ok r
    ∧ RAGService.error r = None
    ∧ RAGService.memory_used r = 0
    ∧ Ok (A := string) "Hi there!" = Ok (RAGService.response r).
Proof.
  destruct (retrieval_failure_degrades
              (service (Raise "store offline") (Ok [Some "Hi there!"]) (Ok tt) (Ok ∅))
              "Hello" (Some "c1") None None None 100%Z 250%Z "store offline" eq_refl)
    as (r & Hasync & _ & Herr & Hmem & _ & _ & _ & _ & _ & Hgen).
  exists r. split; [exact Hasync |]. split; [exact Herr |].
  split; [exact Hmem | exact Hgen].
Defined.

(** Two blanks before and a line break after the answer are dropped;
    the second choice is not read. *)
Lemma completion_text_is_stripped_witness :
  ∃ text pre post,
    RAGService._generate_response_sync
      (service (Ok tea) (Ok [Some "  Hi there!
"; Some "Good day."]) (Ok tt) (Ok ∅))
      "Hello" tea None = Ok text
    ∧ "  Hi there!
" = pre +:+ text +:+ post
    ∧ all_space pre = true ∧ all_space post = true.
Proof.
  destruct (completion_text_is_stripped
              (service (Ok tea) (Ok [Some "  Hi there!
"; Some "Good day."]) (Ok tt) (Ok ∅))
              "Hello" tea None _ _ _ eq_refl eq_refl)
    as (text & pre & post & Hsync & _ & Hsplit & Hpre & Hpost & _).
  exists text, pre, post.
  split; [exact Hsync |]. split; [exact Hsplit |]. split; [exact Hpre | exact Hpost].
Defined.

(** A completion of two blanks gives the empty answer. *)
Lemma blank_completion_gives_empty_text_witness :
  ∃ r,
    RAGService.chat_async (service (Ok tea) (Ok [Some "  "]) (Ok tt) (Ok ∅))
      "Hello" (Some "c1") None None None 100%Z 250%Z = Ok r
    ∧ RAGService.response r = "" ∧ RAGService.error r = None.
Proof.
  destruct (blank_completion_gives_empty_text
              (service (Ok tea) (Ok [Some "  "]) (Ok tt) (Ok ∅))
              "Hello" (Some "c1") None None None 100%Z 250%Z tea _ "  " []
              eq_refl eq_refl eq_refl eq_refl)
    as (r & Hasync & _ & Htext & Herr).
  exists r. split; [exact Hasync |]. split; [exact Htext | exact Herr].
Defined.

(** The third and last chunk of a 49-character answer has 9
    characters. *)
Lemma chunk_sizes_witness :
  String.length "ady soon." = Nat.min 20 (49 - 20 * 2)
  ∧ 1 ≤ String.length "ady soon." ≤ 20.
Proof.
  destruct (chunk_sizes
              (conversation (service (Ok tea)
                 (Ok [Some "The kettle is on and your tea will be ready soon."])
                 (Ok tt) (Ok ∅)))
              "Hello" None None (Some "c1") None "u-1" 100%Z 250%Z _
              2 "ady soon." eq_refl eq_refl)
    as (Hlen & Hbounds & _).
  split; [exact Hlen | exact Hbounds].
Defined.

(** A fourth memory, other sources and other metadata leave the context
    as it is. *)
Lemma context_reads_first_three_witness :
  RAGService.context_text
    {| memories := ["a"; "b"; "c"; "d"]; facts := []; web_results := [];
       sources := ["memory"]; metadata := {["user_id" := VInt 7]} |}
  = RAGService.context_text
      {| memories := ["a"; "b"; "c"]; facts := []; web_results := [];
         sources := []; metadata := ∅ |}.
Proof.
  exact (context_reads_first_three
           {| memories := ["a"; "b"; "c"; "d"]; facts := []; web_results := [];
              sources := ["memory"]; metadata := {["user_id" := VInt 7]} |}
           {| memories := ["a"; "b"; "c"]; facts := []; web_results := [];
              sources := []; metadata := ∅ |}
           eq_refl eq_refl eq_refl).
Defined.

End WorkedExtras.
